(** * University management system: the student financial ledger

    A shallow embedding of the two source files that carry the ledger's
    rules,

    - [backend/src/prisma/schema.prisma]: the data model (the
      [StudentAccount] and [Payment] models, their enumerations, defaults
      and unique indexes);
    - [frontend/src/components/financial/PaymentForm.tsx]: the payment
      form, which validates a payment, derives the discount amount and the
      percentages shown, and displays the fee breakdown and the balance;

    followed by the properties of the ledger stated against them. *)

From Stdlib Require Import ZArith QArith Qround Lia Lqa Bool List String Ascii.
From Stdlib Require Import DecimalString DecimalZ.
From Stdlib Require Import Floats.
Import ListNotations.

Local Open Scope Q_scope.

(** ** JavaScript numbers

    The form computes with JavaScript [number]s.  A number is modelled as
    a finite value, one of the two infinities, or NaN; finite values are
    exact rationals, so the rounding of IEEE-754 binary64 arithmetic is
    outside the model (every concrete evaluation below is made at values
    and results that binary64 represents exactly, where both agree).  The
    sign of zero is not modelled.  This reading serves the validation of
    the form, the texts of whole percentages and the evaluations at exact
    values; what depends on how binary64 rounds or overflows is stated
    over the binary64 numbers themselves ([Number64], [Form64]). *)
Module JS.

Inductive number : Type :=
| Fin (q : Q)
| PosInf
| NegInf
| NaN.

Definition of_Z (z : Z) : number := Fin (inject_Z z).

(** Equality of numbers as values (finite ones up to [Qeq]). *)
Definition num_eq (x y : number) : Prop :=
  match x, y with
  | Fin a, Fin b => a == b
  | PosInf, PosInf | NegInf, NegInf | NaN, NaN => True
  | _, _ => False
  end.

Definition num_eqb (x y : number) : bool :=
  match x, y with
  | Fin a, Fin b => Qeq_bool a b
  | PosInf, PosInf | NegInf, NegInf | NaN, NaN => true
  | _, _ => false
  end.

Definition is_finite (x : number) : bool :=
  match x with Fin _ => true | _ => false end.

Definition neg (x : number) : number :=
  match x with
  | Fin a => Fin (- a)
  | PosInf => NegInf
  | NegInf => PosInf
  | NaN => NaN
  end.

(** [x + y] *)
Definition add (x y : number) : number :=
  match x, y with
  | NaN, _ | _, NaN => NaN
  | Fin a, Fin b => Fin (a + b)
  | PosInf, NegInf | NegInf, PosInf => NaN
  | PosInf, _ | _, PosInf => PosInf
  | NegInf, _ | _, NegInf => NegInf
  end.

(** [x - y] *)
Definition sub (x y : number) : number := add x (neg y).

(** The sign of a rational as a comparison with zero. *)
Definition sgn (a : Q) : comparison := a ?= 0.

(** An infinity scaled by a finite factor. *)
Definition scale_inf (positive : bool) (a : Q) : number :=
  match sgn a with
  | Eq => NaN
  | Gt => if positive then PosInf else NegInf
  | Lt => if positive then NegInf else PosInf
  end.

(** [x * y] *)
Definition mul (x y : number) : number :=
  match x, y with
  | NaN, _ | _, NaN => NaN
  | Fin a, Fin b => Fin (a * b)
  | PosInf, Fin a | Fin a, PosInf => scale_inf true a
  | NegInf, Fin a | Fin a, NegInf => scale_inf false a
  | PosInf, PosInf | NegInf, NegInf => PosInf
  | PosInf, NegInf | NegInf, PosInf => NegInf
  end.

(** [x / y]: a finite value divided by zero is an infinity (NaN for
    [0 / 0]), never an exception. *)
Definition div (x y : number) : number :=
  match x, y with
  | NaN, _ | _, NaN => NaN
  | Fin a, Fin b =>
      if Qeq_bool b 0 then
        match sgn a with Eq => NaN | Gt => PosInf | Lt => NegInf end
      else Fin (a / b)
  | Fin _, (PosInf | NegInf) => Fin 0
  | PosInf, Fin b => match sgn b with Lt => NegInf | _ => PosInf end
  | NegInf, Fin b => match sgn b with Lt => PosInf | _ => NegInf end
  | (PosInf | NegInf), (PosInf | NegInf) => NaN
  end.

(** [x > 0] *)
Definition gt0 (x : number) : bool :=
  match x with
  | Fin a => match sgn a with Gt => true | _ => false end
  | PosInf => true
  | NegInf | NaN => false
  end.

(** Truthiness of a number: [0] and [NaN] are falsy. *)
Definition truthy (x : number) : bool :=
  match x with
  | Fin a => negb (Qeq_bool a 0)
  | PosInf | NegInf => true
  | NaN => false
  end.

(** [x || d] where [x] is a number that may be absent ([undefined] or
    [null], also what optional chaining yields on a missing object). *)
Definition or_default (x : option number) (d : number) : number :=
  match x with
  | Some v => if truthy v then v else d
  | None => d
  end.

(** [Math.round]: the nearest integer, a tie going towards plus infinity. *)
Definition Math_round (x : number) : number :=
  match x with
  | Fin a => of_Z (Qfloor (a + (1 # 2)))
  | other => other
  end.

(** [Number.prototype.toString] on the values [Math.round] returns: the
    decimal digits of an integer and the names of the special values.  (The
    exponent notation of integers of magnitude 1e21 and more is not
    modelled.) *)
Definition toString (x : number) : string :=
  match x with
  | Fin a => NilZero.string_of_int (Z.to_int (Qfloor a))
  | PosInf => "Infinity"
  | NegInf => "-Infinity"
  | NaN => "NaN"
  end.

(** [parseFloat] on the strings that the form's percentage states hold: a
    decimal integer literal or the name of a special value; any other
    string is read as NaN (a fractional part or trailing text is not
    modelled). *)
Definition parseFloat (s : string) : number :=
  if String.eqb s "Infinity" then PosInf
  else if String.eqb s "-Infinity" then NegInf
  else match NilZero.int_of_string s with
       | Some i => of_Z (Z.of_int i)
       | None => NaN
       end.

End JS.

Declare Scope js_scope.
Delimit Scope js_scope with js.
Infix "+" := JS.add : js_scope.
Infix "-" := JS.sub : js_scope.
Infix "*" := JS.mul : js_scope.
Infix "/" := JS.div : js_scope.
Infix "||" := JS.or_default : js_scope.
Infix "=n=" := JS.num_eq (at level 70, no associativity).

(** ** The data model: [schema.prisma] *)
Module Schema.

(** [enum PaymentStatus] *)
Inductive PaymentStatus : Type := pending | paid | overdue | partial.

(** [enum PaymentType] *)
Inductive PaymentType : Type :=
| tuition | id_card | certificate | graduation
| housing | administrative | deposits | other.

Definition PaymentType_values : list (string * PaymentType) :=
  [ ("tuition"%string, tuition); ("id_card"%string, id_card);
    ("certificate"%string, certificate); ("graduation"%string, graduation);
    ("housing"%string, housing); ("administrative"%string, administrative);
    ("deposits"%string, deposits); ("other"%string, other) ].

(** The enumeration value a string names, if any. *)
Fixpoint lookup_enum {A : Type} (vs : list (string * A)) (s : string)
  : option A :=
  match vs with
  | [] => None
  | (k, v) :: rest => if String.eqb k s then Some v else lookup_enum rest s
  end.

Definition PaymentType_of_string : string -> option PaymentType :=
  lookup_enum PaymentType_values.

(** The scalar types the two models use. *)
Inductive scalar : Type :=
| TString | TInt | TFloat | TBoolean | TDateTime
| TEnum (name : string).

Definition scalar_eqb (a b : scalar) : bool :=
  match a, b with
  | TString, TString | TInt, TInt | TFloat, TFloat
  | TBoolean, TBoolean | TDateTime, TDateTime => true
  | TEnum x, TEnum y => String.eqb x y
  | _, _ => false
  end.

(** A field declaration: its name, its type, whether it is optional
    ([?]), whether it carries [@unique], and its [@default], if any. *)
Record field : Type := mkField {
  f_name : string;
  f_type : scalar;
  f_optional : bool;
  f_unique : bool;
  f_default : option string
}.

Definition req (n : string) (t : scalar) : field :=
  mkField n t false false None.
Definition opt (n : string) (t : scalar) : field :=
  mkField n t true false None.

(** [model StudentAccount], scalar fields in declaration order. *)
Definition StudentAccount_model : list field :=
  [ req "id" TString;
    mkField "studentId" TString false true None;
    req "academicYear" TString;
    req "semester" TInt;
    mkField "is_active" TBoolean true false (Some "true"%string);
    opt "paidType" TString;
    mkField "status" TString false false (Some "normal"%string);
    mkField "scholarship" TFloat true false (Some "0"%string);
    opt "TuitionFeeType" TString;
    req "tuitionFee" TFloat;
    opt "otherCharges" TFloat;
    opt "discount" TFloat;
    opt "forwarded" TFloat;
    req "totalDue" TFloat;
    opt "paidAmount" TFloat;
    mkField "createdAt" TDateTime false false (Some "now()"%string);
    req "updatedAt" TDateTime ].

(** [model Payment], scalar fields in declaration order. *)
Definition Payment_model : list field :=
  [ req "id" TString;
    req "studentId" TString;
    req "amount" TFloat;
    req "paymentDate" TDateTime;
    opt "dueDate" TDateTime;
    opt "status" (TEnum "PaymentStatus");
    req "type" (TEnum "PaymentType");
    opt "paymentMethod" TString;
    mkField "createdAt" TDateTime false false (Some "now()"%string);
    req "updatedAt" TDateTime ].

Fixpoint find_field (m : list field) (n : string) : option field :=
  match m with
  | [] => None
  | f :: rest => if String.eqb (f_name f) n then Some f else find_field rest n
  end.

(** The fields of the two models that hold an amount of money. *)
Definition StudentAccount_money : list string :=
  [ "tuitionFee"; "otherCharges"; "discount"; "forwarded"; "totalDue";
    "paidAmount" ]%string.

Definition Payment_money : list string := [ "amount"%string ].

(** Whether a scalar type is exact for decimal amounts: an integer count
    of minor units or a decimal string; a binary [Float] is not. *)
Definition decimal_safe (t : scalar) : bool :=
  match t with
  | TInt | TString => true
  | _ => false
  end.

Definition field_decimal_safe (m : list field) (n : string) : bool :=
  match find_field m n with
  | Some f => decimal_safe (f_type f)
  | None => false
  end.

(** A stored [StudentAccount] document.  Times are milliseconds since the
    epoch. *)
Record StudentAccount : Type := mkStudentAccount {
  id : string;
  studentId : string;
  academicYear : string;
  semester : Z;
  is_active : option bool;
  paidType : option string;
  status : string;
  scholarship : option JS.number;
  TuitionFeeType : option string;
  tuitionFee : JS.number;
  otherCharges : option JS.number;
  discount : option JS.number;
  forwarded : option JS.number;
  totalDue : JS.number;
  paidAmount : option JS.number;
  createdAt : Z;
  updatedAt : Z
}.

(** A stored [Payment] document. *)
Record Payment : Type := mkPayment {
  p_id : string;
  p_studentId : string;
  p_amount : JS.number;
  p_paymentDate : Z;
  p_dueDate : option Z;
  p_status : option PaymentStatus;
  p_type : PaymentType;
  p_paymentMethod : option string;
  p_createdAt : Z;
  p_updatedAt : Z
}.

End Schema.

(** ** The payment form: [PaymentForm.tsx] *)
Module PaymentForm.
Import Schema.
Local Open Scope string_scope.

(** The [Student] the form is given, with the fields the form reads; its
    accounts and payments are the documents of the data model. *)
Record Student : Type := mkStudent {
  s_id : string;
  s_studentId : string;
  fullName : string;
  email : string;
  isActive : bool;
  payments : list Payment;
  studentAccount : list StudentAccount
}.

(** [selectedStudent?.studentAccount?.[0]] *)
Definition account0 (selectedStudent : option Student) : option StudentAccount :=
  match selectedStudent with
  | Some s => hd_error (studentAccount s)
  | None => None
  end.

(** [selectedStudent?.studentAccount?.[0]?.f] for an optional field [f] *)
Definition account_opt (f : StudentAccount -> option JS.number)
    (selectedStudent : option Student) : option JS.number :=
  match account0 selectedStudent with
  | Some acc => f acc
  | None => None
  end.

(** [selectedStudent?.studentAccount?.[0]?.tuitionFee] *)
Definition account_tuitionFee (selectedStudent : option Student)
  : option JS.number :=
  option_map tuitionFee (account0 selectedStudent).

(** *** Validation: [formSchema] *)

(** The values of the form.  [amount] is a number already: the input's
    [onChange] stores [parseFloat(e.target.value) || 0]. *)
Record FormValues : Type := mkFormValues {
  amount : JS.number;
  paymentDate : option Z;
  type : string;
  paymentMethod : string
}.

Inductive issue : Type :=
| Expected_number_received_nan
| Amount_must_be_positive
| Payment_date_is_required
| Payment_type_is_required
| Payment_method_is_required.

Definition message (i : issue) : string :=
  match i with
  | Expected_number_received_nan => "Expected number, received nan"
  | Amount_must_be_positive => "Amount must be positive"
  | Payment_date_is_required => "Payment date is required"
  | Payment_type_is_required => "Payment type is required"
  | Payment_method_is_required => "Payment method is required"
  end.

(** [z.coerce.number().positive("Amount must be positive")] *)
Definition check_amount (a : JS.number) : list issue :=
  match a with
  | JS.NaN => [Expected_number_received_nan]
  | _ => if JS.gt0 a then [] else [Amount_must_be_positive]
  end.

(** [z.date({ required_error })] *)
Definition check_date (d : option Z) : list issue :=
  match d with
  | Some _ => []
  | None => [Payment_date_is_required]
  end.

(** [z.string().min(1, msg)] *)
Definition check_min1 (msg : issue) (s : string) : list issue :=
  if (1 <=? String.length s)%nat then [] else [msg].

(** [formSchema]: the issues found in the values, none when they are
    accepted. *)
Definition formSchema (v : FormValues) : list issue :=
  check_amount (amount v) ++
  check_date (paymentDate v) ++
  check_min1 Payment_type_is_required (type v) ++
  check_min1 Payment_method_is_required (paymentMethod v).

(** The options of the two selects of the payment card. *)
Definition PAYMENT_TYPE_OPTIONS : list string :=
  map fst PaymentType_values.

Definition PAYMENT_METHOD_OPTIONS : list string :=
  [ "cash"; "bank_transfer"; "mobile_money"; "check" ].

(** [PaymentFormData], what [handleSubmit] hands to [onSubmit]. *)
Record PaymentFormData : Type := mkPaymentFormData {
  d_amount : JS.number;
  d_paymentDate : Z;
  d_type : string;
  d_paymentMethod : string;
  d_studentId : option string;
  d_tuitionFee : JS.number;
  d_discount : JS.number;
  d_paid : JS.number;
  d_net : JS.number
}.

(** [handleSubmit], run by [form.handleSubmit] on accepted values only (the
    date is kept as a time; its rendering as text is not modelled).
    [netAmount] is not a field of the account model: reading it yields
    [undefined]. *)
Definition handleSubmit (selectedStudent : option Student) (v : FormValues)
    (date : Z) : PaymentFormData :=
  {| d_amount := amount v;
     d_paymentDate := date;
     d_type := type v;
     d_paymentMethod := paymentMethod v;
     d_studentId := option_map s_studentId selectedStudent;
     d_tuitionFee := (account_tuitionFee selectedStudent || JS.of_Z 0)%js;
     d_discount := (account_opt discount selectedStudent || JS.of_Z 0)%js;
     d_paid := (account_opt paidAmount selectedStudent || JS.of_Z 0)%js;
     d_net := (None || JS.of_Z 0)%js |}.

(** [form.handleSubmit(handleSubmit)]: validate, then submit. *)
Definition submit (selectedStudent : option Student) (v : FormValues)
  : PaymentFormData + list issue :=
  match formSchema v, paymentDate v with
  | [], Some date => inl (handleSubmit selectedStudent v date)
  | issues, _ => inr issues
  end.

(** What the [Payment] model accepts of submitted data: [type] must name a
    value of [enum PaymentType]; [paymentMethod] is a [String?], any
    text. *)
Definition Payment_type_of (d : PaymentFormData) : option PaymentType :=
  PaymentType_of_string (d_type d).

(** *** The component's states *)

Definition PAID_TYPES : list string :=
  [ "Per Month"; "Per Semester"; "Per Year"; "One Time" ].

Definition DISCOUNT_PERCENTAGES : list string :=
  [ "0"; "5"; "10"; "15"; "20"; "25"; "30"; "40"; "50"; "75"; "100" ].

Definition SCHOLARSHIP_PERCENTAGES : list string :=
  [ "0"; "10"; "25"; "50"; "75"; "100" ].

(** [studentStatus], initially *)
Definition studentStatus_init (selectedStudent : option Student) : string :=
  match selectedStudent with
  | Some s => if isActive s then "active" else "inactive"
  | None => "inactive"
  end.

(** [paidType], initially: [(account?.paidType || 1).toString()] *)
Definition paidType_init (selectedStudent : option Student) : string :=
  match account0 selectedStudent with
  | Some acc =>
      match paidType acc with
      | Some t => if String.eqb t "" then "1" else t
      | None => "1"
      end
  | None => "1"
  end.

(** The divisor of the discount percentage: [account.tuitionFee || 1] *)
Definition discount_divisor (acc : StudentAccount) : JS.number :=
  (Some (tuitionFee acc) || JS.of_Z 1)%js.

(** The number whose text is the initial [discountPercentage], when the
    account has a (truthy) discount [d]. *)
Definition discount_percent (acc : StudentAccount) (d : JS.number) : JS.number :=
  JS.Math_round ((d / discount_divisor acc) * JS.of_Z 100)%js.

(** [discountPercentage], initially *)
Definition discountPercentage_init (selectedStudent : option Student) : string :=
  match account0 selectedStudent with
  | Some acc =>
      match discount acc with
      | Some d =>
          if JS.truthy d then JS.toString (discount_percent acc d) else "0"
      | None => "0"
      end
  | None => "0"
  end.

(** [scholarshipPercentage], initially *)
Definition scholarshipPercentage_init (selectedStudent : option Student)
  : string :=
  match account_opt scholarship selectedStudent with
  | Some p => if JS.truthy p then JS.toString (JS.Math_round p) else "0"
  | None => "0"
  end.

(** The states the handlers read. *)
Record State : Type := mkState {
  st_studentStatus : string;
  st_paidType : string;
  st_discountPercentage : string;
  st_scholarshipPercentage : string
}.

Definition init (selectedStudent : option Student) : State :=
  {| st_studentStatus := studentStatus_init selectedStudent;
     st_paidType := paidType_init selectedStudent;
     st_discountPercentage := discountPercentage_init selectedStudent;
     st_scholarshipPercentage := scholarshipPercentage_init selectedStudent |}.

(** The selects' [onValueChange]: the state takes the value of the chosen
    option. *)
Definition setDiscountPercentage (v : string) (st : State) : State :=
  {| st_studentStatus := st_studentStatus st;
     st_paidType := st_paidType st;
     st_discountPercentage := v;
     st_scholarshipPercentage := st_scholarshipPercentage st |}.

Definition setScholarshipPercentage (v : string) (st : State) : State :=
  {| st_studentStatus := st_studentStatus st;
     st_paidType := st_paidType st;
     st_discountPercentage := st_discountPercentage st;
     st_scholarshipPercentage := v |}.

(** *** The handlers

    Each handler calls [updateStudentAccount] of the student store; the
    call is what a handler returns here ([None] when it returns early). *)
Record UpdateCall : Type := mkUpdateCall {
  u_id : string;
  u_paidType : string;
  u_discount : option JS.number;
  u_studentStatus : option string;
  u_scholarship : option JS.number
}.

(** [handlePaidTypeChange] *)
Definition handlePaidTypeChange (selectedStudent : option Student) (st : State)
  : option UpdateCall :=
  match selectedStudent with
  | None => None
  | Some s => Some (mkUpdateCall (s_id s) (st_paidType st) None None None)
  end.

(** The discount amount [handleDiscountChange] derives. *)
Definition discountAmount (selectedStudent : option Student) (st : State)
  : JS.number :=
  let tuitionFee := (account_tuitionFee selectedStudent || JS.of_Z 0)%js in
  ((JS.parseFloat (st_discountPercentage st) / JS.of_Z 100) * tuitionFee)%js.

(** [handleDiscountChange] *)
Definition handleDiscountChange (selectedStudent : option Student) (st : State)
  : option UpdateCall :=
  match selectedStudent with
  | None => None
  | Some s =>
      Some (mkUpdateCall (s_id s) (st_paidType st)
              (Some (discountAmount selectedStudent st))
              (Some (st_studentStatus st)) None)
  end.

(** [handleScholarshipChange] *)
Definition handleScholarshipChange (selectedStudent : option Student)
    (st : State) : option UpdateCall :=
  match selectedStudent with
  | None => None
  | Some s =>
      let scholarshipAmount := JS.parseFloat (st_scholarshipPercentage st) in
      Some (mkUpdateCall (s_id s) (st_paidType st) None None
              (Some scholarshipAmount))
  end.

(** *** Deleting a payment of the transaction history *)

Inductive toast : Type :=
| toast_success (msg : string)
| toast_error (msg : string).

(** What the dialog tells the user before a payment is deleted. *)
Definition AlertDialogDescription (selectedStudent : option Student) : string :=
  "This action cannot be undone. This will permanently delete the payment record for "
  ++ match selectedStudent with
     | Some s => if String.eqb (fullName s) "" then "this student" else fullName s
     | None => "this student"
     end
  ++ ".".

(** [handleDeletePayment]: the payment is selected and the dialog opens. *)
Definition handleDeletePayment (transaction : Payment)
  : option Payment * bool :=
  (Some transaction, true).

(** [confirmDeletePayment], over the stored payments: [deletePayment] of
    the payment store is called with the identifier of the selected
    payment, and its failure is caught and reported.  The store's function
    is a parameter here. *)
Definition confirmDeletePayment {E : Type}
    (deletePayment : string -> list Payment -> list Payment + E)
    (selectedPayment : option Payment) (stored : list Payment)
  : list Payment * option toast :=
  match selectedPayment with
  | Some p =>
      match deletePayment (p_id p) stored with
      | inl stored' => (stored', Some (toast_success "Payment deleted successfully"))
      | inr _ => (stored, Some (toast_error "Failed to delete payment"))
      end
  | None => (stored, None)
  end.

(** *** The fee card: the numbers handed to the currency formatter *)

Definition TUITION_FEE (selectedStudent : option Student) : JS.number :=
  (account_tuitionFee selectedStudent || JS.of_Z 0)%js.

Definition SCHOLARSHIP (selectedStudent : option Student) : JS.number :=
  (((account_opt scholarship selectedStudent || JS.of_Z 0) / JS.of_Z 100) *
   (account_tuitionFee selectedStudent || JS.of_Z 0))%js.

Definition FORWARDED (selectedStudent : option Student) : JS.number :=
  (account_opt forwarded selectedStudent || JS.of_Z 0)%js.

Definition DISCOUNT (selectedStudent : option Student) : JS.number :=
  (account_opt discount selectedStudent || JS.of_Z 0)%js.

Definition PAID (selectedStudent : option Student) : JS.number :=
  (account_opt paidAmount selectedStudent || JS.of_Z 0)%js.

Definition BALANCE (selectedStudent : option Student) : JS.number :=
  ((account_tuitionFee selectedStudent || JS.of_Z 0) +
   (account_opt forwarded selectedStudent || JS.of_Z 0) -
   (account_opt discount selectedStudent || JS.of_Z 0) -
   (account_opt paidAmount selectedStudent || JS.of_Z 0))%js.

End PaymentForm.

(** ** The stored collections

    The documents of a model form a collection; the operations on it are
    those of the database client, which enforces the declarations of the
    schema: a [create] or an [update] that would give two documents the
    same value of a [@unique] field fails, and an operation on an absent
    document fails. *)
Module Store.
Import Schema.
Local Open Scope string_scope.

Inductive error : Type :=
| UniqueConstraintFailed (target : string)
| RecordNotFound.

(** The failure of [create] on a second account of one student. *)
Definition DuplicateAccount : error := UniqueConstraintFailed "studentId".

(** *** [StudentAccount]: [studentId String @unique] *)

Definition accounts : Type := list StudentAccount.

Definition has_studentId (sid : string) (c : accounts) : bool :=
  existsb (fun a => String.eqb (studentId a) sid) c.

Definition has_id (i : string) (c : accounts) : bool :=
  existsb (fun a => String.eqb (id a) i) c.

(** [create]: the document is added unless a unique field is taken. *)
Definition create (a : StudentAccount) (c : accounts) : accounts + error :=
  if has_studentId (studentId a) c then inr DuplicateAccount
  else if has_id (id a) c then inr (UniqueConstraintFailed "id")
  else inl (c ++ [a])%list.

(** The documents other than the one with identifier [i]. *)
Definition others (i : string) (c : accounts) : accounts :=
  filter (fun a => negb (String.eqb (id a) i)) c.

(** Replace the document with identifier [i] by [b], in place. *)
Fixpoint replace (i : string) (b : StudentAccount) (c : accounts) : accounts :=
  match c with
  | [] => []
  | a :: rest =>
      if String.eqb (id a) i then b :: rest else a :: replace i b rest
  end.

(** [update]: the document with identifier [i] is changed by [f] (its
    identifier is kept), unless that takes the [studentId] of another
    document. *)
Definition update (i : string) (f : StudentAccount -> StudentAccount)
    (c : accounts) : accounts + error :=
  match find (fun a => String.eqb (id a) i) c with
  | None => inr RecordNotFound
  | Some a =>
      let b := f a in
      if negb (String.eqb (id b) i) then inr (UniqueConstraintFailed "id")
      else if has_studentId (studentId b) (others i c)
      then inr DuplicateAccount
      else inl (replace i b c)
  end.

(** [delete] *)
Definition delete (i : string) (c : accounts) : accounts + error :=
  if has_id i c then inl (others i c) else inr RecordNotFound.

(** The operations of the client on the collection. *)
Inductive op : Type :=
| Create (a : StudentAccount)
| Update (i : string) (f : StudentAccount -> StudentAccount)
| Delete (i : string).

Definition run (o : op) (c : accounts) : accounts + error :=
  match o with
  | Create a => create a c
  | Update i f => update i f c
  | Delete i => delete i c
  end.

(** The collections that operations build from the empty one. *)
Inductive reachable : accounts -> Prop :=
| reach_empty : reachable []
| reach_run o c c' : reachable c -> run o c = inl c' -> reachable c'.

(** An account is closed once it is deactivated ([is_active] false). *)
Definition closed (a : StudentAccount) : bool :=
  match is_active a with
  | Some false => true
  | _ => false
  end.

(** The non-closed accounts of a student in an academic period. *)
Definition open_accounts (sid year : string) (sem : Z) (c : accounts)
  : accounts :=
  filter (fun a => negb (closed a) && String.eqb (studentId a) sid &&
                   String.eqb (academicYear a) year && (semester a =? sem)%Z) c.

(** No two stored accounts share an identifier or a student: what the
    declarations [@id] and [@unique] stand for. *)
Definition unique (c : accounts) : Prop :=
  NoDup (map id c) /\ NoDup (map studentId c).

End Store.

(** ** The ledger service

    The operations on accounts and on the journal of payments (the stores
    and the service behind them) are not among the embedded sources.  They
    are modelled here from the specification of the ledger: money as an
    integer count of minor units, percentages as rationals, and an account
    whose derived fields are recomputed after every operation. *)
Module Ledger.
Local Open Scope Z_scope.

(** Modelled from the spec: the Money component (fixed-point amounts in
    integer minor units), which the sources do not have. *)
Definition Money : Type := Z.

(** Modelled from the spec: Money's multiply-by-percentage, rounding half
    up to a whole minor unit. *)
Definition percent_of (p : Q) (m : Money) : Money :=
  Qfloor (p * inject_Z m / 100 + (1 # 2))%Q.

Inductive PaidType : Type := per_month | per_semester | per_year | one_time.

Inductive Status : Type := normal | pending | overdue | partial | paid.

Inductive PaymentMethod : Type := cash | bank_transfer | mobile_money | check.

Inductive error : Type :=
| DuplicateAccount | InvalidFee | InvalidPaidType
| DiscountExceedsFee | InvalidPercentage
| NonPositiveAmount | UnknownPaymentType | UnknownPaymentMethod
| NotFound
| NegativeAmount.

Definition PaidType_of_string (s : string) : option PaidType :=
  Schema.lookup_enum
    [ ("per_month"%string, per_month); ("per_semester"%string, per_semester);
      ("per_year"%string, per_year); ("one_time"%string, one_time) ] s.

Definition PaymentMethod_of_string (s : string) : option PaymentMethod :=
  Schema.lookup_enum
    [ ("cash"%string, cash); ("bank_transfer"%string, bank_transfer);
      ("mobile_money"%string, mobile_money); ("check"%string, check) ] s.

(** Modelled from the spec: a PaymentEvent of the journal; [reversed] is
    the mark that excludes it from aggregation. *)
Record PaymentEvent : Type := mkEvent {
  eventId : nat;
  ev_studentId : string;
  ev_amount : Money;
  ev_date : Z;
  ev_type : Schema.PaymentType;
  ev_method : PaymentMethod;
  reversed : bool
}.

Definition Journal : Type := list PaymentEvent.

(** Modelled from the spec: a LedgerAccount, its fee composition and its
    derived fields. *)
Record LedgerAccount : Type := mkAccount {
  studentId : string;
  academicYear : string;
  semester : Z;
  baseFee : Money;
  otherCharges : Money;
  discount : Money;
  scholarshipPercentage : Q;
  forwarded : Money;
  totalDue : Money;
  paidAmount : Money;
  balance : Money;
  paidType : PaidType;
  status : Status;
  active : bool
}.

(** The scholarship amount, derived from the percentage and the base
    fee. *)
Definition scholarshipAmount (a : LedgerAccount) : Money :=
  percent_of (scholarshipPercentage a) (baseFee a).


Section Calendar.

(** The academic calendar, a collaborator of the ledger: the period a
    date falls in and the date payment is due in a period. *)
Variable period_of : Z -> string * Z.
Variable getPaymentDueDate : string -> Z -> Z.

(** Whether an event is one of a student in a period. *)
Definition in_period (sid year : string) (sem : Z) (e : PaymentEvent) : bool :=
  String.eqb (ev_studentId e) sid &&
  String.eqb (fst (period_of (ev_date e))) year &&
  (snd (period_of (ev_date e)) =? sem).

(** The events of a student in a period, reversed ones included. *)
Definition events_of (sid year : string) (sem : Z) (j : Journal) : Journal :=
  filter (in_period sid year sem) j.

(** Modelled from the spec: [PaymentJournal.aggregate], the sum of the
    amounts of the non-reversed events of a student in a period. *)
Definition aggregate (sid year : string) (sem : Z) (j : Journal) : Money :=
  fold_right (fun e total => ev_amount e + total) 0
             (filter (fun e => negb (reversed e)) (events_of sid year sem j)).

(** Modelled from the spec: the AccountStatusPolicy, its cases in the
    order the specification lists them. *)
Definition deriveStatus (now due : Z) (totalDue paidAmount : Money)
    (hasPayment : bool) : Status :=
  let balance := totalDue - paidAmount in
  if (balance <=? 0) && hasPayment then paid
  else if (0 <? paidAmount) && (paidAmount <? totalDue) then partial
  else if (0 <? balance) && (due <? now) then overdue
  else pending.

(** Modelled from the spec: [LedgerAccount.recompute], which derives the
    total due, the paid amount, the balance and the status from the
    composition and the journal, and changes nothing else. *)
Definition recompute (now : Z) (a : LedgerAccount) (j : Journal)
  : LedgerAccount :=
  let total :=
    baseFee a + otherCharges a + forwarded a - discount a
    - scholarshipAmount a in
  let paid_ := aggregate (studentId a) (academicYear a) (semester a) j in
  let recorded :=
    negb (Nat.eqb (List.length
      (events_of (studentId a) (academicYear a) (semester a) j)) 0) in
  {| studentId := studentId a;
     academicYear := academicYear a;
     semester := semester a;
     baseFee := baseFee a;
     otherCharges := otherCharges a;
     discount := discount a;
     scholarshipPercentage := scholarshipPercentage a;
     forwarded := forwarded a;
     totalDue := total;
     paidAmount := paid_;
     balance := total - paid_;
     paidType := paidType a;
     status :=
       deriveStatus now
         (getPaymentDueDate (academicYear a) (semester a)) total paid_
         recorded;
     active := active a |}.

(** Modelled from the spec: [LedgerAccount.create]. *)
Definition create (existing : list LedgerAccount) (sid year : string)
    (sem : Z) (fee : Money) (pt : PaidType) : LedgerAccount + error :=
  if existsb (fun a => active a && String.eqb (studentId a) sid &&
                       String.eqb (academicYear a) year && (semester a =? sem))
             existing
  then inr DuplicateAccount
  else if fee <? 0 then inr InvalidFee
  else inl {| studentId := sid; academicYear := year; semester := sem;
              baseFee := fee; otherCharges := 0; discount := 0;
              scholarshipPercentage := 0%Q; forwarded := 0;
              totalDue := fee; paidAmount := 0; balance := fee;
              paidType := pt; status := pending; active := true |}.

(** An account with one field of its composition changed. *)
Definition with_discount (d : Money) (a : LedgerAccount) : LedgerAccount :=
  mkAccount (studentId a) (academicYear a) (semester a) (baseFee a)
    (otherCharges a) d (scholarshipPercentage a) (forwarded a) (totalDue a)
    (paidAmount a) (balance a) (paidType a) (status a) (active a).

Definition with_scholarship (p : Q) (a : LedgerAccount) : LedgerAccount :=
  mkAccount (studentId a) (academicYear a) (semester a) (baseFee a)
    (otherCharges a) (discount a) p (forwarded a) (totalDue a)
    (paidAmount a) (balance a) (paidType a) (status a) (active a).

Definition with_forwarded (f : Money) (a : LedgerAccount) : LedgerAccount :=
  mkAccount (studentId a) (academicYear a) (semester a) (baseFee a)
    (otherCharges a) (discount a) (scholarshipPercentage a) f (totalDue a)
    (paidAmount a) (balance a) (paidType a) (status a) (active a).

Definition with_baseFee (fee : Money) (a : LedgerAccount) : LedgerAccount :=
  mkAccount (studentId a) (academicYear a) (semester a) fee
    (otherCharges a) (discount a) (scholarshipPercentage a) (forwarded a)
    (totalDue a) (paidAmount a) (balance a) (paidType a) (status a)
    (active a).

Definition with_paidType (pt : PaidType) (a : LedgerAccount) : LedgerAccount :=
  mkAccount (studentId a) (academicYear a) (semester a) (baseFee a)
    (otherCharges a) (discount a) (scholarshipPercentage a) (forwarded a)
    (totalDue a) (paidAmount a) (balance a) pt (status a) (active a).

Definition with_active (b : bool) (a : LedgerAccount) : LedgerAccount :=
  mkAccount (studentId a) (academicYear a) (semester a) (baseFee a)
    (otherCharges a) (discount a) (scholarshipPercentage a) (forwarded a)
    (totalDue a) (paidAmount a) (balance a) (paidType a) (status a) b.


(** A discount is requested as an amount or as a percentage of the base
    fee. *)
Inductive discount_request : Type :=
| Amount (m : Money)
| Percentage (p : Q).

Definition requested_discount (r : discount_request) (a : LedgerAccount)
  : Money :=
  match r with
  | Amount m => m
  | Percentage p => percent_of p (baseFee a)
  end.

(** Modelled from the spec: [AdjustmentEngine.applyDiscount]; Money
    rejects a negative discount. *)
Definition applyDiscount (now : Z) (j : Journal) (a : LedgerAccount)
    (r : discount_request) : LedgerAccount + error :=
  let d := requested_discount r a in
  if d <? 0 then inr NegativeAmount
  else if baseFee a <? d then inr DiscountExceedsFee
  else inl (recompute now (with_discount d a) j).

(** Modelled from the spec: [AdjustmentEngine.applyScholarship]. *)
Definition applyScholarship (now : Z) (j : Journal) (a : LedgerAccount)
    (p : Q) : LedgerAccount + error :=
  if (Qle_bool 0 p && Qle_bool p 100)%bool
  then inl (recompute now (with_scholarship p a) j)
  else inr InvalidPercentage.

(** Modelled from the spec: [AdjustmentEngine.applyForwardedBalance]. *)
Definition applyForwardedBalance (now : Z) (j : Journal) (a : LedgerAccount)
    (m : Money) : LedgerAccount + error :=
  inl (recompute now (with_forwarded m a) j).

(** Modelled from the spec: the explicit re-pricing of an account from
    the catalog. *)
Definition reprice (now : Z) (j : Journal) (a : LedgerAccount) (fee : Money)
  : LedgerAccount + error :=
  if fee <? 0 then inr InvalidFee
  else inl (recompute now (with_baseFee fee a) j).

(** Modelled from the spec: [LedgerAccount.setPaidType]. *)
Definition setPaidType (a : LedgerAccount) (newType : string)
  : LedgerAccount + error :=
  match PaidType_of_string newType with
  | Some pt => inl (with_paidType pt a)
  | None => inr InvalidPaidType
  end.

(** Modelled from the spec: [LedgerAccount.deactivate]. *)
Definition deactivate (a : LedgerAccount) : LedgerAccount :=
  with_active false a.

(** Modelled from the spec: [PaymentJournal.record]; the new event takes
    the next identifier of the journal. *)
Definition record (j : Journal) (sid : string) (amount : Money) (date : Z)
    (type method : string) : PaymentEvent + error :=
  if amount <=? 0 then inr NonPositiveAmount
  else match Schema.PaymentType_of_string type with
       | None => inr UnknownPaymentType
       | Some t =>
           match PaymentMethod_of_string method with
           | None => inr UnknownPaymentMethod
           | Some m => inl (mkEvent (List.length j) sid amount date t m false)
           end
       end.

(** An event with the mark of reversal; nothing else of it changes. *)
Definition as_reversed (e : PaymentEvent) : PaymentEvent :=
  mkEvent (eventId e) (ev_studentId e) (ev_amount e) (ev_date e)
    (ev_type e) (ev_method e) true.

(** Mark the event with the given identifier as reversed. *)
Definition mark_reversed (i : nat) (j : Journal) : Journal :=
  map (fun e => if Nat.eqb (eventId e) i then as_reversed e else e) j.

(** Modelled from the spec: [PaymentJournal.reverse]. *)
Definition reverse (i : nat) (j : Journal) : Journal + error :=
  match find (fun e => Nat.eqb (eventId e) i) j with
  | Some e => if reversed e then inr NotFound else inl (mark_reversed i j)
  | None => inr NotFound
  end.

(** The state of one account and of the journal. *)
Record state : Type := mkState { acc : LedgerAccount; journal : Journal }.

(** The mutating operations on an account and on the journal. *)
Inductive op : Type :=
| SetPaidType (newType : string)
| Deactivate
| ApplyDiscount (r : discount_request)
| ApplyScholarship (p : Q)
| ApplyForwardedBalance (m : Money)
| Reprice (fee : Money)
| Record_ (sid : string) (amount : Money) (date : Z) (type method : string)
| Reverse (i : nat).


Definition on_account (r : LedgerAccount + error) (j : Journal)
  : state + error :=
  match r with
  | inl a => inl (mkState a j)
  | inr e => inr e
  end.

(** A change of the journal triggers the recompute of the account. *)
Definition on_journal (now : Z) (a : LedgerAccount) (j' : Journal) : state :=
  mkState (recompute now a j') j'.

(** One operation at time [now]; an operation that fails changes
    nothing. *)
Definition step (now : Z) (o : op) (s : state) : state + error :=
  let a := acc s in
  let j := journal s in
  match o with
  | SetPaidType t => on_account (setPaidType a t) j
  | Deactivate => inl (mkState (deactivate a) j)
  | ApplyDiscount r => on_account (applyDiscount now j a r) j
  | ApplyScholarship p => on_account (applyScholarship now j a p) j
  | ApplyForwardedBalance m => on_account (applyForwardedBalance now j a m) j
  | Reprice fee => on_account (reprice now j a fee) j
  | Record_ sid amount date type method =>
      match record j sid amount date type method with
      | inl e => inl (on_journal now a (j ++ [e]))
      | inr e => inr e
      end
  | Reverse i =>
      match reverse i j with
      | inl j' => inl (on_journal now a j')
      | inr e => inr e
      end
  end.

(** The states of the ledger: an account is created, then operations
    that succeed are applied. *)
Inductive reachable : state -> Prop :=
| reach_create existing sid year sem fee pt a j :
    create existing sid year sem fee pt = inl a ->
    reachable (mkState a j)
| reach_step now o s s' :
    reachable s -> step now o s = inl s' -> reachable s'.

(** A run of operations, stopping at the first failure. *)
Fixpoint run (ops : list (Z * op)) (s : state) : state + error :=
  match ops with
  | [] => inl s
  | (now, o) :: rest =>
      match step now o s with
      | inl s' => run rest s'
      | inr e => inr e
      end
  end.

End Calendar.

End Ledger.

(** ** The amounts of the specification *)
Module Updates.
Import Schema PaymentForm.

(** A student whose current account (the one at index 0) is [a]. *)
Definition with_account (a : StudentAccount) (s : Student) : Student :=
  mkStudent (s_id s) (s_studentId s) (fullName s) (email s) (isActive s)
    (payments s) (a :: tl (studentAccount s)).

(** The specification's rounding of an amount, given in major units, half
    up to a whole minor unit (a hundredth). *)
Definition round_half_up_minor (x : Q) : Q :=
  (inject_Z (Qfloor (x * 100 + (1 # 2))) / 100)%Q.

(** The total due of the specification, from the stored composition of an
    account (absent fields count as zero). *)
Definition spec_totalDue (a : StudentAccount) : JS.number :=
  (tuitionFee a + (otherCharges a || JS.of_Z 0) + (forwarded a || JS.of_Z 0)
   - (discount a || JS.of_Z 0)
   - ((scholarship a || JS.of_Z 0) / JS.of_Z 100) * tuitionFee a)%js.

End Updates.

(** ** Sample data *)
Module Sample.
Import Schema PaymentForm.
Local Open Scope string_scope.
Local Open Scope Z_scope.

(** An account with the given fee, scholarship percentage, discount, total
    due and paid amount. *)
Definition account (fee : JS.number) (scholarship_ discount_ : option JS.number)
    (totalDue_ : JS.number) (paid_ : option JS.number) : StudentAccount :=
  {| id := "acc-1"; studentId := "STU-001"; academicYear := "2024-2025";
     semester := 1; is_active := Some true;
     paidType := Some "Per Semester"; status := "normal";
     scholarship := scholarship_; TuitionFeeType := None;
     tuitionFee := fee; otherCharges := None; discount := discount_;
     forwarded := None; totalDue := totalDue_; paidAmount := paid_;
     createdAt := 0; updatedAt := 0 |}.

Definition student (accounts : list StudentAccount) : Student :=
  {| s_id := "stu-1"; s_studentId := "STU-001"; fullName := "A. Student";
     email := "a.student@example.org"; isActive := true; payments := [];
     studentAccount := accounts |}.

(** The account of the specification's example: a fee of 1000.00 and a
    scholarship of 10%, hence a total due of 900.00, of which 400.00 are
    paid. *)
Definition account_1000 : StudentAccount :=
  account (JS.of_Z 1000) (Some (JS.of_Z 10)) None (JS.of_Z 900)
          (Some (JS.of_Z 400)).

Definition student_1000 : Student := student [account_1000].

(** An account with a fee of 1000.25 and nothing else. *)
Definition account_1000_25 : StudentAccount :=
  account (JS.Fin (4001 # 4)%Q) (Some (JS.of_Z 0)) None (JS.Fin (4001 # 4)%Q) None.

Definition student_1000_25 : Student := student [account_1000_25].

(** The form of that student once 50% is chosen in the discount select. *)
Definition state_50 : State :=
  setDiscountPercentage "50" (init (Some student_1000_25)).

(** An account whose stored discount, 150.00, exceeds its fee of 100.00. *)
Definition account_over : StudentAccount :=
  account (JS.of_Z 100) (Some (JS.of_Z 0)) (Some (JS.of_Z 150)) (JS.of_Z (-50))
          None.

Definition student_over : Student := student [account_over].

(** Values of the payment form: a payment of 50.00 by a method that is
    none of the four offered. *)
Definition values_bitcoin : FormValues :=
  {| amount := JS.of_Z 50; paymentDate := Some 1700000000000;
     type := "tuition"; paymentMethod := "bitcoin" |}.

(** The same with a type that [enum PaymentType] does not have. *)
Definition values_lottery : FormValues :=
  {| amount := JS.of_Z 50; paymentDate := Some 1700000000000;
     type := "lottery"; paymentMethod := "cash" |}.

Definition values_cash : FormValues :=
  {| amount := JS.of_Z 50; paymentDate := Some 1700000000000;
     type := "tuition"; paymentMethod := "cash" |}.

(** A second account of the same student, for the next semester. *)
Definition account_next : StudentAccount :=
  {| id := "acc-2"; studentId := "STU-001"; academicYear := "2024-2025";
     semester := 2; is_active := Some true;
     paidType := None; status := "normal";
     scholarship := Some (JS.of_Z 0); TuitionFeeType := None;
     tuitionFee := JS.of_Z 1000; otherCharges := None; discount := None;
     forwarded := None; totalDue := JS.of_Z 1000; paidAmount := None;
     createdAt := 0; updatedAt := 0 |}.

(** A calendar of the ledger: every date falls in the first semester of
    2024-2025, whose payment is due at time 100. *)
Definition period_of (_ : Z) : string * Z := ("2024-2025", 1).
Definition getPaymentDueDate (_ : string) (_ : Z) : Z := 100.






End Sample.

(** ** The student search of the form

    The effect that filters the students when the search term changes.
    A string is read as its sequence of characters, one byte each, which
    is what a JavaScript string of ASCII characters is.  [toLowerCase]
    and [trim] are those of the source on such strings ([ascii_only]):
    among the ASCII characters only the letters A to Z have a lower case,
    and the white space and line ends that [trim] strips are the six of
    [is_white].  The properties are stated for ASCII terms and ASCII
    names, identifiers and addresses; other strings are outside this
    reading. *)
Module StudentSearch.
Import PaymentForm.
Local Open Scope string_scope.

(** The white space that [trim] strips: tab, line feed, vertical tab,
    form feed, carriage return and space. *)
Definition is_white (c : ascii) : bool :=
  let n := nat_of_ascii c in
  ((9 <=? n) && (n <=? 13) || (n =? 32))%nat.

(** [String.prototype.trimStart] *)
Fixpoint trimStart (s : string) : string :=
  match s with
  | "" => ""
  | String c rest => if is_white c then trimStart rest else s
  end.

(** [String.prototype.trimEnd] *)
Fixpoint trimEnd (s : string) : string :=
  match s with
  | "" => ""
  | String c rest =>
      let r := trimEnd rest in
      if is_white c && String.eqb r "" then "" else String c r
  end.

(** [String.prototype.trim] *)
Definition trim (s : string) : string := trimEnd (trimStart s).

Definition lower_char (c : ascii) : ascii :=
  let n := nat_of_ascii c in
  if ((65 <=? n) && (n <=? 90))%nat then ascii_of_nat (n + 32) else c.

(** [String.prototype.toLowerCase] *)
Fixpoint toLowerCase (s : string) : string :=
  match s with
  | "" => ""
  | String c rest => String (lower_char c) (toLowerCase rest)
  end.

(** [s.includes(term)]: [term] occurs in [s] as a run of characters. *)
Fixpoint includes (s term : string) : bool :=
  prefix term s ||
  match s with
  | "" => false
  | String _ rest => includes rest term
  end.

(** The test of the filter, for a term already in lower case. *)
Definition matches (term : string) (student : Student) : bool :=
  includes (toLowerCase (fullName student)) term ||
  includes (toLowerCase (s_studentId student)) term ||
  includes (toLowerCase (email student)) term.

(** [filteredStudents], as the effect sets it for a search term. *)
Definition filteredStudents (searchTerm : string) (students : list Student)
  : list Student :=
  if String.eqb (trim searchTerm) "" then []
  else
    let term := toLowerCase searchTerm in
    filter (matches term) students.

(** The strings of ASCII characters only. *)
Definition is_ascii (c : ascii) : bool := (nat_of_ascii c <? 128)%nat.

Fixpoint ascii_only (s : string) : bool :=
  match s with
  | "" => true
  | String c rest => is_ascii c && ascii_only rest
  end.

(** The students whose name, identifier and address are ASCII. *)
Definition ascii_student (student : Student) : bool :=
  ascii_only (fullName student) && ascii_only (s_studentId student) &&
  ascii_only (email student).

End StudentSearch.

(** ** More sample data *)
Module Sample2.
Import Schema PaymentForm.
Local Open Scope string_scope.

Definition named (i sid name mail : string) : Student :=
  {| s_id := i; s_studentId := sid; fullName := name; email := mail;
     isActive := true; payments := []; studentAccount := [] |}.

Definition ali : Student :=
  named "stu-1" "STU-001" "Ali Hassan" "ali@example.org".
Definition sara : Student :=
  named "stu-2" "STU-002" "Sara Omar" "sara@example.org".
Definition students : list Student := [ali; sara].

(** An account with a fee of 800.00 and a stored discount of 15% of it,
    120.00. *)
Definition account_800 : StudentAccount :=
  Sample.account (JS.of_Z 800) (Some (JS.of_Z 25)) (Some (JS.of_Z 120))
                 (JS.of_Z 480) None.

Definition student_800 : Student := Sample.student [account_800].

(** An account without a paid type. *)
Definition account_no_paidType : StudentAccount :=
  {| id := "acc-3"; studentId := "STU-003"; academicYear := "2024-2025";
     semester := 1%Z; is_active := Some true; paidType := None;
     status := "normal"; scholarship := Some (JS.of_Z 0);
     TuitionFeeType := None; tuitionFee := JS.of_Z 1000;
     otherCharges := None; discount := None; forwarded := None;
     totalDue := JS.of_Z 1000; paidAmount := None;
     createdAt := 0%Z; updatedAt := 0%Z |}.

Definition student_no_paidType : Student :=
  Sample.student [account_no_paidType].

(** A student without any account. *)
Definition student_no_account : Student := Sample.student [].

(** The deactivation of an account. *)
Definition deactivate (a : StudentAccount) : StudentAccount :=
  mkStudentAccount (id a) (studentId a) (academicYear a) (semester a)
    (Some false) (paidType a) (status a) (scholarship a) (TuitionFeeType a)
    (tuitionFee a) (otherCharges a) (discount a) (forwarded a) (totalDue a)
    (paidAmount a) (createdAt a) (updatedAt a).

End Sample2.

(** ** Sample states of the ledger *)
Module SampleLedger.
Import Ledger.
Local Open Scope string_scope.
Local Open Scope Z_scope.









End SampleLedger.

(** ** The numbers of the form in binary64

    The Number type of the form is the binary64 floating-point type.  Where
    a property depends on how the arithmetic rounds or overflows, the form
    is read over the primitive floating-point numbers, whose operations
    are those of IEEE 754 with rounding to nearest, ties to even. *)
Module Number64.
Import PrimFloat.
Local Open Scope float_scope.

(** [ToBoolean] of a Number: false for NaN and for the two zeros. *)
Definition truthy (x : float) : bool := negb (is_nan x || is_zero x).

(** [v || d] for a Number [v] that may be [undefined] ([None]). *)
Definition or_default (v : option float) (d : float) : float :=
  match v with
  | Some x => if truthy x then x else d
  | None => d
  end.

(** [Math.round]: the integer nearest to [x], a tie going up.  NaN, the
    infinities and the numbers that are integers already are returned as
    they are; otherwise [x] is [m * 2 ^ e] with [e < 0], below 2^53 in
    size, and the result is the floor of [x + 1/2], computed exactly, with
    the sign of [x] when it is zero. *)
Definition Math_round (x : float) : float :=
  match Prim2SF x with
  | S754_finite s m e =>
      if (0 <=? e)%Z then x
      else
        let n := ((cond_Zopp s (2 * Z.pos m) + 2 ^ (- e)) / 2 ^ (1 - e))%Z in
        let r := of_uint63 (Uint63.of_Z (Z.abs n)) in
        if s then - r else r
  | _ => x
  end.

(** [parseFloat] on the text of a decimal integer without sign, which is
    what the percentage selects hold: the nearest Number.  The other
    texts are outside this reading ([None]). *)
Definition parseFloat (s : string) : option float :=
  match NilZero.uint_of_string s with
  | Some d => Some (SF2Prim (binary_normalize prec emax (Z.of_uint d) 0 false))
  | None => None
  end.

(** The classes of a floating-point number, on its specification. *)
Definition sf_nan (x : spec_float) : bool :=
  match x with S754_nan => true | _ => false end.

Definition sf_inf (x : spec_float) : bool :=
  match x with S754_infinity _ => true | _ => false end.

Definition sf_zero (x : spec_float) : bool :=
  match x with S754_zero _ => true | _ => false end.

End Number64.

(** ** The payment form over binary64

    The initial discount percentage, the two handlers of the adjustments
    and the cells of the fee card, as [PaymentForm.tsx] has them, over
    binary64 numbers.  A field of an account that is absent or [null]
    reads as [undefined] ([None]); so does [studentAccount] of a student
    object that has no such property. *)
Module Form64.
Import PrimFloat Number64.
Local Open Scope float_scope.

Record StudentAccount : Type := mkStudentAccount {
  tuitionFee : option float;
  scholarship : option float;
  discount : option float;
  forwarded : option float;
  paidAmount : option float
}.

Record Student : Type := mkStudent {
  id : string;
  studentAccount : option (list StudentAccount)
}.

(** [selectedStudent?.studentAccount?.[0]], the guarded read of the
    initial states and of the handlers. *)
Definition account0 (selectedStudent : option Student) : option StudentAccount :=
  match selectedStudent with
  | Some s =>
      match studentAccount s with
      | Some (a :: _) => Some a
      | _ => None
      end
  | None => None
  end.

(** What an expression throws. *)
Inductive thrown : Type := TypeError.

(** [selectedStudent?.studentAccount[0]], the read of the fee card: the
    chain stops at a student that is [null], and the index is taken
    without a guard, so it throws when the student has no
    [studentAccount]. *)
Definition card_account0 (selectedStudent : option Student)
  : option StudentAccount + thrown :=
  match selectedStudent with
  | Some s =>
      match studentAccount s with
      | Some l => inl (hd_error l)
      | None => inr TypeError
      end
  | None => inl None
  end.

(** [a?.f] *)
Definition read (f : StudentAccount -> option float) (a : option StudentAccount)
  : option float :=
  match a with
  | Some a => f a
  | None => None
  end.

(** The divisor [tuitionFee || 1] of the initial discount percentage
    (lines 148-156). *)
Definition discount_divisor (a : StudentAccount) : float :=
  or_default (tuitionFee a) 1.

(** [Math.round((discount / (tuitionFee || 1)) * 100)] *)
Definition discount_percent (a : StudentAccount) (d : float) : float :=
  Math_round ((d / discount_divisor a) * 100).

(** The number whose text is the initial [discountPercentage]: the
    rounded percentage when the stored discount is truthy, and 0, whose
    text is "0", otherwise. *)
Definition discountPercentage_init (selectedStudent : option Student) : float :=
  match account0 selectedStudent with
  | Some a =>
      match discount a with
      | Some d => if truthy d then discount_percent a d else 0
      | None => 0
      end
  | None => 0
  end.

(** A call of [updateStudentAccount(id, paidType, discount, status,
    scholarship)]; an argument left out or [undefined] is [None]. *)
Record UpdateCall : Type := mkUpdateCall {
  u_id : string;
  u_paidType : string;
  u_discount : option float;
  u_status : option string;
  u_scholarship : option float
}.

(** [discountAmount] of [handleDiscountChange] (lines 322-324), where
    [discountPercentage] is the number that [parseFloat] reads from the
    state of that name. *)
Definition discountAmount (selectedStudent : option Student)
    (discountPercentage : float) : float :=
  (discountPercentage / 100)
  * or_default (read tuitionFee (account0 selectedStudent)) 0.

(** [handleDiscountChange]: nothing without a selected student, and
    otherwise the call it makes. *)
Definition handleDiscountChange (selectedStudent : option Student)
    (paidType studentStatus : string) (discountPercentage : float)
  : option UpdateCall :=
  match selectedStudent with
  | None => None
  | Some s =>
      Some (mkUpdateCall (id s) paidType
              (Some (discountAmount selectedStudent discountPercentage))
              (Some studentStatus) None)
  end.

(** [handleScholarshipChange], where [scholarshipPercentage] is the
    number that [parseFloat] reads from the state of that name. *)
Definition handleScholarshipChange (selectedStudent : option Student)
    (paidType : string) (scholarshipPercentage : float) : option UpdateCall :=
  match selectedStudent with
  | None => None
  | Some s =>
      Some (mkUpdateCall (id s) paidType None None (Some scholarshipPercentage))
  end.

(** A cell of the fee card: the number handed to the formatter, or what
    reading the account throws. *)
Definition cell (f : option StudentAccount -> float)
    (selectedStudent : option Student) : float + thrown :=
  match card_account0 selectedStudent with
  | inl a => inl (f a)
  | inr e => inr e
  end.

Definition TUITION_FEE : option Student -> float + thrown :=
  cell (fun a => or_default (read tuitionFee a) 0).

Definition SCHOLARSHIP : option Student -> float + thrown :=
  cell (fun a => (or_default (read scholarship a) 0 / 100)
                 * or_default (read tuitionFee a) 0).

Definition FORWARDED : option Student -> float + thrown :=
  cell (fun a => or_default (read forwarded a) 0).

Definition DISCOUNT : option Student -> float + thrown :=
  cell (fun a => or_default (read discount a) 0).

Definition PAID : option Student -> float + thrown :=
  cell (fun a => or_default (read paidAmount a) 0).

Definition BALANCE : option Student -> float + thrown :=
  cell (fun a => or_default (read tuitionFee a) 0
                 + or_default (read forwarded a) 0
                 - or_default (read discount a) 0
                 - or_default (read paidAmount a) 0).

(** A stored number that is absent or finite. *)
Definition finite_or_absent (v : option float) : bool :=
  match v with
  | Some x => PrimFloat.is_finite x
  | None => true
  end.

End Form64.

(** ** Sample data in binary64 *)
Module Sample64.
Import PrimFloat Form64.
Local Open Scope float_scope.
Local Open Scope string_scope.

(** An account with the given fee, scholarship percentage and discount,
    and nothing else. *)
Definition account (fee : float) (scholarship discount : option float)
  : StudentAccount :=
  mkStudentAccount (Some fee) scholarship discount None None.

Definition student (a : StudentAccount) : Student :=
  mkStudent "stu-1" (Some [a]).

Definition student_1000_25 : Student := student (account 1000.25 None None).

(** Students with a scholarship of 10% on a fee of 3, 30, 1000 and
    2000. *)
Definition student_3 : Student := student (account 3 (Some 10) None).
Definition student_30 : Student := student (account 30 (Some 10) None).
Definition student_1000 : Student := student (account 1000 (Some 10) None).
Definition student_2000 : Student := student (account 2000 (Some 10) None).

(** An account whose stored fee and discount are both infinite. *)
Definition student_infinite : Student :=
  student (account infinity None (Some infinity)).

(** An account with a stored discount of 2^1023 (about 9e307) on a fee
    of 0.5. *)
Definition student_huge : Student :=
  student (account 0.5 None (Some 0x1p+1023)).

(** An account with a fee and a forwarded balance of 2^1023 each, of
    which 400 are paid. *)
Definition account_large : StudentAccount :=
  mkStudentAccount (Some 0x1p+1023) None None (Some 0x1p+1023) (Some 400).

(** A student without an account. *)
Definition student_no_account : Student := mkStudent "stu-2" (Some []).

End Sample64.

(** * Properties *)

(** ** Numbers *)
Module JSFacts.
Import JS.

Lemma truthy_Fin q : truthy (Fin q) = true <-> ~ q == 0.
Proof.
  unfold truthy. rewrite negb_true_iff.
  split; intro H.
  - intro E. apply Qeq_bool_iff in E. congruence.
  - destruct (Qeq_bool q 0) eqn:E; [ | reflexivity ].
    apply Qeq_bool_iff in E. contradiction.
Qed.

Lemma falsy_Fin q : truthy (Fin q) = false <-> q == 0.
Proof.
  unfold truthy. rewrite negb_false_iff. apply Qeq_bool_iff.
Qed.

(** [x || d] is [x] when [x] is truthy and [d] otherwise. *)
Lemma or_default_Some x d :
  or_default (Some x) d = if truthy x then x else d.
Proof. reflexivity. Qed.

(** Division of finite numbers by a truthy one is the division of
    rationals. *)
Lemma div_Fin a b : truthy (Fin b) = true -> div (Fin a) (Fin b) = Fin (a / b).
Proof.
  intro H. unfold truthy in H. apply negb_true_iff in H.
  unfold div. rewrite H. reflexivity.
Qed.

Lemma num_eq_refl x : x =n= x.
Proof. destruct x; simpl; auto. reflexivity. Qed.

Lemma num_eq_trans x y z : x =n= y -> y =n= z -> x =n= z.
Proof.
  destruct x, y, z; simpl; auto; try contradiction.
  intros H1 H2. rewrite H1. exact H2.
Qed.

End JSFacts.

(** ** The fee card *)
Module FeeCard.
Import Schema PaymentForm Updates JS JSFacts.

Lemma account0_with_account a s : account0 (Some (with_account a s)) = Some a.
Proof. reflexivity. Qed.

(** The balance shown, for finite stored values: fee plus forwarded
    balance less discount less paid amount. *)
Lemma BALANCE_finite selectedStudent a t f d p :
  account0 selectedStudent = Some a ->
  tuitionFee a = Fin t -> forwarded a = Some (Fin f) ->
  discount a = Some (Fin d) -> paidAmount a = Some (Fin p) ->
  BALANCE selectedStudent =n= Fin (t + f - d - p).
Proof.
  intros Ea Et Ef Ed Ep. unfold BALANCE, account_opt, account_tuitionFee.
  rewrite Ea. simpl. rewrite Et, Ef, Ed, Ep, !or_default_Some.
  destruct (truthy (Fin t)) eqn:Tt; destruct (truthy (Fin f)) eqn:Tf;
    destruct (truthy (Fin d)) eqn:Td; destruct (truthy (Fin p)) eqn:Tp;
    simpl; try apply falsy_Fin in Tt; try apply falsy_Fin in Tf;
    try apply falsy_Fin in Td; try apply falsy_Fin in Tp;
    change (inject_Z 0) with 0; lra.
Qed.

(** The balance shown does not read the other charges, the scholarship or
    the stored total due of the account. *)
Lemma BALANCE_ignores selectedStudent a b :
  account0 selectedStudent = Some a ->
  tuitionFee b = tuitionFee a -> forwarded b = forwarded a ->
  discount b = discount a -> paidAmount b = paidAmount a ->
  forall s, BALANCE (Some (with_account b s)) = BALANCE selectedStudent.
Proof.
  intros Ea Et Ef Ed Ep s. unfold BALANCE, account_opt, account_tuitionFee.
  rewrite account0_with_account, Ea. simpl. rewrite Et, Ef, Ed, Ep.
  reflexivity.
Qed.

(** C2. On the account of the specification's example (fee 1000.00,
    scholarship 10%, total due 900.00, paid 400.00) the balance shown is
    600.00, the fee less the paid amount, while the total due less the paid
    amount is 500.00: the shown balance leaves out the scholarship of
    100.00 that the same card shows. *)
Theorem BALANCE_leaves_out_scholarship :
  BALANCE (Some Sample.student_1000) =n= of_Z 600 /\
  SCHOLARSHIP (Some Sample.student_1000) =n= of_Z 100 /\
  spec_totalDue Sample.account_1000 =n= totalDue Sample.account_1000 /\
  (totalDue Sample.account_1000 - PAID (Some Sample.student_1000))%js
    =n= of_Z 500.
Proof. repeat split; vm_compute; reflexivity. Qed.

End FeeCard.

(** ** The discount *)
Module Discount.
Import Schema PaymentForm Updates JS JSFacts.

(** C5, against the specification as written: half of a fee of 1000.25
    is sent as 500.125, whereas rounded half up to a hundredth it is
    500.13. *)
Lemma discountAmount_is_not_rounded :
  discountAmount (Some Sample.student_1000_25) Sample.state_50
    =n= Fin (4001 # 8) /\
  round_half_up_minor (50 / 100 * (4001 # 4)) == 50013 # 100 /\
  num_eqb (discountAmount (Some Sample.student_1000_25) Sample.state_50)
          (Fin (round_half_up_minor (50 / 100 * (4001 # 4)))) = false.
Proof. repeat split; vm_compute; reflexivity. Qed.

(** The form has no check of the discount against the fee: opened on an
    account whose stored discount (150.00) exceeds its fee (100.00), the
    state is 150% and the handler requests a discount of 150.00. *)
Lemma handleDiscountChange_has_no_check :
  st_discountPercentage (init (Some Sample.student_over)) = "150"%string /\
  exists u d,
    handleDiscountChange (Some Sample.student_over)
      (init (Some Sample.student_over)) = Some u /\
    u_discount u = Some d /\ d =n= of_Z 150.
Proof.
  split; [ reflexivity | ].
  eexists. eexists. split; [ reflexivity | ]. split; [ reflexivity | ].
  vm_compute. reflexivity.
Qed.

End Discount.

(** ** Recording a payment *)
Module Recording.
Import Schema PaymentForm JS JSFacts.
Local Open Scope string_scope.

Lemma check_min1_nil msg s : check_min1 msg s = [] <-> s <> "".
Proof.
  unfold check_min1. destruct s; simpl; split; intro H;
    try reflexivity; try discriminate; congruence.
Qed.

Lemma check_amount_nil a : check_amount a = [] <-> gt0 a = true.
Proof.
  unfold check_amount. destruct a; simpl.
  - destruct (sgn q); split; intro H; try reflexivity; discriminate.
  - split; reflexivity.
  - split; discriminate.
  - split; discriminate.
Qed.

Lemma check_date_nil d : check_date d = [] <-> d <> None.
Proof.
  destruct d; simpl; split; intro H; try reflexivity; try discriminate;
    congruence.
Qed.

(** What [formSchema] accepts. *)
Lemma formSchema_nil v :
  formSchema v = [] <->
  gt0 (amount v) = true /\ paymentDate v <> None /\
  type v <> "" /\ paymentMethod v <> "".
Proof.
  unfold formSchema. split.
  - intro H.
    apply app_eq_nil in H. destruct H as [Ha H].
    apply app_eq_nil in H. destruct H as [Hd H].
    apply app_eq_nil in H. destruct H as [Ht Hm].
    repeat split.
    + apply check_amount_nil, Ha.
    + apply check_date_nil, Hd.
    + apply (check_min1_nil Payment_type_is_required), Ht.
    + apply (check_min1_nil Payment_method_is_required), Hm.
  - intros (Ha & Hd & Ht & Hm).
    apply check_amount_nil in Ha. apply check_date_nil in Hd.
    apply (check_min1_nil Payment_type_is_required) in Ht.
    apply (check_min1_nil Payment_method_is_required) in Hm.
    rewrite Ha, Hd, Ht, Hm. reflexivity.
Qed.

(** A text names a value of an enumeration exactly when it is one of its
    names. *)
Lemma lookup_enum_In {A : Type} (vs : list (string * A)) s :
  lookup_enum vs s <> None <-> In s (map fst vs).
Proof.
  induction vs as [ | [k x] vs IH]; simpl.
  - split; [ congruence | contradiction ].
  - destruct (String.eqb_spec k s) as [E | N].
    + split; [ intros _; left; exact E | discriminate ].
    + rewrite IH. split; [ intro H; right; exact H | ].
      intros [H | H]; [ contradiction | exact H ].
Qed.

(** Submission succeeds on accepted values only, and passes them on. *)
Lemma submit_inl s v d :
  submit s v = inl d ->
  formSchema v = [] /\ d_amount d = amount v /\ d_type d = type v /\
  d_paymentMethod d = paymentMethod v.
Proof.
  unfold submit. destruct (formSchema v) eqn:E; [ | discriminate ].
  destruct (paymentDate v); [ | discriminate ].
  intro H. injection H as <-. repeat split.
Qed.

(** C4, amended.  A payment whose amount is not strictly positive is
    refused with "Amount must be positive", and one whose type or method
    is the empty text is refused; these, with a missing date, are the only
    refusals of the form: the values are accepted exactly when the amount
    is strictly positive, the date is present and the type and the method
    are not empty.  What is submitted carries the accepted amount, which is
    strictly positive, and the type and the method as they were entered;
    the [Payment] model takes the type only when it names a value of
    [enum PaymentType], and any text as the method. *)
Theorem formSchema_refuses_exactly :
  forall v : FormValues,
    (forall q, amount v = Fin q -> q <= 0 ->
               In Amount_must_be_positive (formSchema v)) /\
    (type v = "" -> In Payment_type_is_required (formSchema v)) /\
    (paymentMethod v = "" -> In Payment_method_is_required (formSchema v)) /\
    (formSchema v = [] <->
       gt0 (amount v) = true /\ paymentDate v <> None /\
       type v <> "" /\ paymentMethod v <> "") /\
    (forall s d, submit s v = inl d ->
       gt0 (d_amount d) = true /\ d_amount d = amount v /\
       d_type d = type v /\ d_paymentMethod d = paymentMethod v /\
       (Payment_type_of d <> None <-> In (d_type d) PAYMENT_TYPE_OPTIONS)).
Proof.
  intro v. split.
  { intros q Ea Hq. unfold formSchema. apply in_or_app. left.
    rewrite Ea. unfold check_amount, gt0, sgn.
    destruct (q ?= 0)%Q eqn:C; try (left; reflexivity).
    apply Qgt_alt in C. lra. }
  split.
  { intro E. unfold formSchema. rewrite E.
    apply in_or_app. right. apply in_or_app. right. apply in_or_app. left.
    left. reflexivity. }
  split.
  { intro E. unfold formSchema. rewrite E.
    apply in_or_app. right. apply in_or_app. right. apply in_or_app. right.
    left. reflexivity. }
  split; [ apply formSchema_nil | ].
  intros s d H. apply submit_inl in H. destruct H as (Hok & Ha & Ht & Hm).
  apply formSchema_nil in Hok. destruct Hok as (Hpos & _).
  rewrite Ha. repeat split; try assumption;
    apply (lookup_enum_In PaymentType_values).
Qed.

(** C4, against the specification as written: a payment by "bitcoin",
    which is none of the four methods, is accepted and submitted as
    entered; and a payment of type "lottery", which [enum PaymentType]
    does not have, is accepted by the form as well. *)
Lemma formSchema_accepts_unknown_method :
  existsb (String.eqb "bitcoin") PAYMENT_METHOD_OPTIONS = false /\
  formSchema Sample.values_bitcoin = [] /\
  (exists d, submit (Some Sample.student_1000) Sample.values_bitcoin = inl d /\
             d_paymentMethod d = "bitcoin") /\
  PaymentType_of_string "lottery" = None /\
  formSchema Sample.values_lottery = [].
Proof.
  repeat split; try reflexivity.
  eexists. split; reflexivity.
Qed.

End Recording.

(** ** The representation of money *)
Module MoneyTypes.
Import Schema.

(** C9, amended.  Every field that holds an amount of money, in an
    account and in a payment, is declared a [Float], a binary floating
    point number, and none is of a type that is exact for decimal
    amounts. *)
Theorem money_fields_are_Float :
  (forall n, In n StudentAccount_money ->
     exists f, find_field StudentAccount_model n = Some f /\
               f_type f = TFloat /\ decimal_safe (f_type f) = false) /\
  (forall n, In n Payment_money ->
     exists f, find_field Payment_model n = Some f /\
               f_type f = TFloat /\ decimal_safe (f_type f) = false).
Proof.
  split; intros n H; simpl in H;
    repeat (destruct H as [H | H];
            [ subst n; eexists; repeat split; reflexivity | ]);
    contradiction.
Qed.

(** C9, against the specification as written: the tuition fee of an
    account and the amount of a payment are not of a decimal-safe type. *)
Lemma tuitionFee_is_not_decimal_safe :
  field_decimal_safe StudentAccount_model "tuitionFee" = false /\
  field_decimal_safe Payment_model "amount" = false.
Proof. split; reflexivity. Qed.

End MoneyTypes.

(** ** One account per student *)
Module AccountUniqueness.
Import Schema Store.

Lemma has_studentId_spec sid c :
  has_studentId sid c = true <-> In sid (map studentId c).
Proof.
  unfold has_studentId. rewrite existsb_exists, in_map_iff.
  split; intros (a & H1 & H2).
  - exists a. split; [ | exact H1 ]. apply String.eqb_eq in H2. exact H2.
  - exists a. split; [ exact H2 | ]. apply String.eqb_eq. exact H1.
Qed.

Lemma has_id_spec i c : has_id i c = true <-> In i (map id c).
Proof.
  unfold has_id. rewrite existsb_exists, in_map_iff.
  split; intros (a & H1 & H2).
  - exists a. split; [ | exact H1 ]. apply String.eqb_eq in H2. exact H2.
  - exists a. split; [ exact H2 | ]. apply String.eqb_eq. exact H1.
Qed.

Lemma NoDup_snoc {A : Type} (l : list A) (x : A) :
  NoDup l -> ~ In x l -> NoDup (l ++ [x]).
Proof.
  intros Hl Hx. apply NoDup_app.
  - exact Hl.
  - constructor; [ intros [] | constructor ].
  - intros a Ha [E | []]. subst a. contradiction.
Qed.

(** Dropping documents keeps the values of a field distinct. *)
Lemma distinct_after_filter (key : StudentAccount -> string)
    (keep : StudentAccount -> bool) (c : accounts) :
  NoDup (map key c) -> NoDup (map key (filter keep c)).
Proof.
  intro H. induction c as [ | a c IH]; simpl in *; [ constructor | ].
  inversion H as [ | ? ? Hn Hl]; subst.
  destruct (keep a); simpl; [ constructor | ]; auto.
  intro Hin. apply Hn. apply in_map_iff in Hin.
  destruct Hin as (b & E & Hb). apply filter_In in Hb.
  apply in_map_iff. exists b. tauto.
Qed.

(** Without a document of identifier [i], nothing is filtered out. *)
Lemma others_absent i c : ~ In i (map id c) -> others i c = c.
Proof.
  induction c as [ | a c IH]; simpl; intro H; [ reflexivity | ].
  destruct (String.eqb_spec (id a) i) as [E | N]; simpl.
  - exfalso. apply H. left. exact E.
  - f_equal. apply IH. intro Hin. apply H. right. exact Hin.
Qed.

Lemma In_replace i b c x : In x (replace i b c) -> x = b \/ In x c.
Proof.
  induction c as [ | a c IH]; simpl; [ contradiction | ].
  destruct (String.eqb (id a) i); simpl; intros [H | H]; auto.
  destruct (IH H); auto.
Qed.

Lemma map_id_replace i b c : id b = i -> map id (replace i b c) = map id c.
Proof.
  intro Hb. induction c as [ | a c IH]; simpl; [ reflexivity | ].
  destruct (String.eqb_spec (id a) i) as [E | N]; simpl.
  - congruence.
  - f_equal. exact IH.
Qed.

Lemma NoDup_studentId_replace i b c :
  NoDup (map id c) -> NoDup (map studentId c) ->
  has_studentId (studentId b) (others i c) = false ->
  NoDup (map studentId (replace i b c)).
Proof.
  induction c as [ | a c IH]; simpl; intros Hid Hsid Hfree; [ constructor | ].
  inversion Hid as [ | ? ? Hn1 Hid']; subst.
  inversion Hsid as [ | ? ? Hn2 Hsid']; subst.
  destruct (String.eqb_spec (id a) i) as [E | N]; simpl in *.
  - subst i. rewrite (others_absent _ _ Hn1) in Hfree.
    constructor; [ | exact Hsid' ].
    intro Hin. apply has_studentId_spec in Hin. congruence.
  - apply orb_false_iff in Hfree. destruct Hfree as [Hab Hfree].
    constructor; [ | apply IH; assumption ].
    intro Hin. apply in_map_iff in Hin. destruct Hin as (x & Ex & Hx).
    apply In_replace in Hx. destruct Hx as [-> | Hx].
    + apply String.eqb_neq in Hab. congruence.
    + apply Hn2. apply in_map_iff. exists x. tauto.
Qed.

(** Every operation that succeeds keeps the identifiers and the students
    of the stored accounts distinct. *)
Lemma run_unique o c c' : unique c -> run o c = inl c' -> unique c'.
Proof.
  intros [Hid Hsid]. destruct o as [a | i f | i]; simpl.
  - unfold create.
    destruct (has_studentId (studentId a) c) eqn:E1; [ discriminate | ].
    destruct (has_id (id a) c) eqn:E2; [ discriminate | ].
    intro H. injection H as <-. unfold unique. rewrite !map_app. simpl.
    split; apply NoDup_snoc; try assumption.
    + intro Hin. apply has_id_spec in Hin. congruence.
    + intro Hin. apply has_studentId_spec in Hin. congruence.
  - unfold update.
    destruct (find (fun a => String.eqb (id a) i) c) as [a | ]; [ | discriminate ].
    destruct (String.eqb_spec (id (f a)) i) as [E | N]; simpl; [ | discriminate ].
    destruct (has_studentId (studentId (f a)) (others i c)) eqn:E2;
      [ discriminate | ].
    intro H. injection H as <-. split.
    + rewrite map_id_replace; assumption.
    + apply NoDup_studentId_replace; assumption.
  - unfold delete. destruct (has_id i c); [ | discriminate ].
    intro H. injection H as <-. unfold others.
    split; apply distinct_after_filter; assumption.
Qed.

Lemma reachable_unique c : reachable c -> unique c.
Proof.
  induction 1 as [ | o c c' _ IH Hrun].
  - split; constructor.
  - exact (run_unique o c c' IH Hrun).
Qed.

(** Accounts of distinct students: at most one is open for a student and
    a period. *)
Lemma unique_open_accounts c sid year sem :
  NoDup (map studentId c) ->
  (List.length (open_accounts sid year sem c) <= 1)%nat.
Proof.
  unfold open_accounts.
  induction c as [ | a c IH]; simpl; intro H; [ lia | ].
  inversion H as [ | ? ? Hn Hc]; subst.
  destruct (negb (closed a) && String.eqb (studentId a) sid &&
            String.eqb (academicYear a) year && (semester a =? sem)%Z)
    eqn:E; [ | auto ].
  rewrite !andb_true_iff in E. destruct E as [[[_ E] _] _].
  apply String.eqb_eq in E. subst sid.
  replace (filter _ c) with (@nil StudentAccount); [ simpl; lia | ].
  symmetry. clear IH H Hc. induction c as [ | b c IHc]; simpl; [ reflexivity | ].
  destruct (String.eqb_spec (studentId b) (studentId a)) as [Eb | Nb].
  - exfalso. apply Hn. left. exact Eb.
  - rewrite andb_false_r. simpl. apply IHc. intro Hin. apply Hn. right. exact Hin.
Qed.

(** C7. In every collection of accounts that the operations of the
    client build, at most one non-closed account exists for a student, an
    academic year and a semester; every further operation that succeeds
    keeps it so; and creating an account fails with [DuplicateAccount] when
    a non-closed account of its student, year and semester is stored. *)
Theorem one_open_account_per_period :
  forall c : accounts,
    reachable c ->
    (forall sid year sem,
       (List.length (open_accounts sid year sem c) <= 1)%nat) /\
    (forall o c', run o c = inl c' ->
       forall sid year sem,
         (List.length (open_accounts sid year sem c') <= 1)%nat) /\
    (forall a,
       open_accounts (studentId a) (academicYear a) (semester a) c <> [] ->
       create a c = inr DuplicateAccount).
Proof.
  intros c Hc. split; [ | split ].
  - intros sid year sem. apply unique_open_accounts.
    apply (reachable_unique c Hc).
  - intros o c' Hrun sid year sem. apply unique_open_accounts.
    apply (reachable_unique c'). exact (reach_run o c c' Hc Hrun).
  - intros a Hopen. unfold create.
    replace (has_studentId (studentId a) c) with true; [ reflexivity | ].
    symmetry. apply has_studentId_spec.
    destruct (open_accounts (studentId a) (academicYear a) (semester a) c)
      as [ | b rest] eqn:E; [ contradiction | ].
    assert (Hb : In b (open_accounts (studentId a) (academicYear a)
                         (semester a) c)) by (rewrite E; left; reflexivity).
    apply filter_In in Hb. destruct Hb as [Hin Hb].
    rewrite !andb_true_iff in Hb. destruct Hb as [[[_ Hb] _] _].
    apply String.eqb_eq in Hb. apply in_map_iff. exists b. tauto.
Qed.

(** The theorem at the collection that holds the sample account. *)
Lemma one_open_account_per_period_witness :
  (forall sid year sem,
     (List.length (open_accounts sid year sem [Sample.account_1000]) <= 1)%nat) /\
  (forall o c', run o [Sample.account_1000] = inl c' ->
     forall sid year sem,
       (List.length (open_accounts sid year sem c') <= 1)%nat) /\
  (forall a,
     open_accounts (studentId a) (academicYear a) (semester a)
       [Sample.account_1000] <> [] ->
     create a [Sample.account_1000] = inr DuplicateAccount).
Proof.
  apply (one_open_account_per_period [Sample.account_1000]).
  apply (reach_run (Create Sample.account_1000) [] [Sample.account_1000]).
  - apply reach_empty.
  - reflexivity.
Defined.

(** The index is on the student alone: a second account of the same
    student is refused also for another semester, in which the student has
    no account. *)
Lemma create_next_semester_fails :
  open_accounts (studentId Sample.account_next)
    (academicYear Sample.account_next) (semester Sample.account_next)
    [Sample.account_1000] = [] /\
  create Sample.account_next [Sample.account_1000] = inr DuplicateAccount.
Proof. split; reflexivity. Qed.

End AccountUniqueness.

(** ** What the form does when a payment is deleted *)
Module PaymentDeletion.
Import Schema PaymentForm.

(** [confirmDeletePayment] hands the identifier of the selected payment
    to the store and reports what the store answers, whatever the store's
    function is: when it succeeds the payments are those it returned and
    the success is announced, when it fails the payments are untouched and
    the failure is announced, and without a selected payment nothing
    happens.  What the store does with the record is not the form's
    doing. *)
Lemma confirmDeletePayment_relays {E : Type}
    (deletePayment : string -> list Payment -> list Payment + E)
    (p : Payment) (stored : list Payment) :
  (forall stored', deletePayment (p_id p) stored = inl stored' ->
     confirmDeletePayment deletePayment (Some p) stored
     = (stored', Some (toast_success "Payment deleted successfully"))) /\
  (forall e, deletePayment (p_id p) stored = inr e ->
     confirmDeletePayment deletePayment (Some p) stored
     = (stored, Some (toast_error "Failed to delete payment"))) /\
  confirmDeletePayment deletePayment None stored = (stored, None).
Proof.
  unfold confirmDeletePayment. split; [ | split ].
  - intros stored' H. rewrite H. reflexivity.
  - intros e H. rewrite H. reflexivity.
  - reflexivity.
Qed.

End PaymentDeletion.

(** ** The ledger's total due *)
Module LedgerInvariant.
Import Ledger.
Local Open Scope Z_scope.













End LedgerInvariant.

(** ** Reversing a payment event *)
Module LedgerReversal.
Import Ledger.
Local Open Scope Z_scope.

(** Marking keeps the identifiers, in their order. *)
Lemma eventIds_mark_reversed i j : map eventId (mark_reversed i j) = map eventId j.
Proof.
  unfold mark_reversed. rewrite map_map. apply map_ext.
  intro x. destruct (Nat.eqb (eventId x) i); reflexivity.
Qed.







(** The identifiers of a journal that [record] has built from the empty
    journal count up from 0, so they are distinct. *)
Lemma record_numbers_the_events j sid amount date type method e :
  map eventId j = seq 0 (List.length j) ->
  record j sid amount date type method = inl e ->
  map eventId (j ++ [e]) = seq 0 (List.length (j ++ [e])).
Proof.
  intros Hj. unfold record.
  destruct (amount <=? 0); [ discriminate | ].
  destruct (Schema.PaymentType_of_string type); [ | discriminate ].
  destruct (PaymentMethod_of_string method); [ | discriminate ].
  intro H. injection H as <-.
  rewrite map_app, length_app, seq_app, Hj. reflexivity.
Qed.

(** Every operation of the ledger keeps the identifiers of the journal
    counting up from 0: [record] numbers the new event and [reverse]
    renumbers nothing. *)
Lemma step_numbers_the_events period_of due now o s s' :
  map eventId (journal s) = seq 0 (List.length (journal s)) ->
  step period_of due now o s = inl s' ->
  map eventId (journal s') = seq 0 (List.length (journal s')).
Proof.
  destruct s as [a j]. simpl. intro Hj.
  destruct o as [t | | r | p | m | fee | sid amount date type method | i];
    simpl; unfold on_account.
  - destruct (setPaidType a t); [ | discriminate ].
    intro H. injection H as <-. exact Hj.
  - intro H. injection H as <-. exact Hj.
  - destruct (applyDiscount period_of due now j a r); [ | discriminate ].
    intro H. injection H as <-. exact Hj.
  - destruct (applyScholarship period_of due now j a p); [ | discriminate ].
    intro H. injection H as <-. exact Hj.
  - intro H. injection H as <-. exact Hj.
  - destruct (reprice period_of due now j a fee); [ | discriminate ].
    intro H. injection H as <-. exact Hj.
  - destruct (record j sid amount date type method) as [e | ] eqn:E;
      [ | discriminate ].
    intro H. injection H as <-. simpl.
    exact (record_numbers_the_events _ _ _ _ _ _ _ Hj E).
  - unfold reverse.
    destruct (find (fun e => Nat.eqb (eventId e) i) j) as [e | ];
      [ | discriminate ].
    destruct (reversed e); [ discriminate | ].
    intro H. injection H as <-. simpl.
    rewrite eventIds_mark_reversed. unfold mark_reversed.
    rewrite length_map. exact Hj.
Qed.



End LedgerReversal.

(** ** The status of an account *)
Module AccountStatus.
Import Ledger.
Local Open Scope Z_scope.




End AccountStatus.

(** ** The student search *)
Module StudentSearchFacts.
Import PaymentForm StudentSearch.
Local Open Scope string_scope.

Lemma append_assoc3 (a b c : string) : (a ++ b) ++ c = a ++ (b ++ c).
Proof. induction a as [ | x a IH]; simpl; [ reflexivity | now rewrite IH ]. Qed.

(** [prefix t s] says that [s] starts with [t]. *)
Lemma prefix_spec t s : prefix t s = true <-> exists b, s = t ++ b.
Proof.
  revert s. induction t as [ | x t IH]; intro s.
  - destruct s; simpl; split; eauto.
  - destruct s as [ | y s]; simpl.
    + split; [ discriminate | intros [b H]; discriminate ].
    + destruct (ascii_dec x y) as [-> | N].
      * rewrite IH. split; intros [b H]; exists b; congruence.
      * split; [ discriminate | intros [b H]; congruence ].
Qed.

(** [includes s t] says that [t] occurs in [s]. *)
Lemma includes_spec s t :
  includes s t = true <-> exists a b, s = a ++ t ++ b.
Proof.
  induction s as [ | c s IH].
  - change (includes "" t) with (prefix t "" || false).
    rewrite orb_false_r, prefix_spec. split.
    + intros [b H]. exists "", b. exact H.
    + intros (a & b & H).
      destruct a; simpl in H; [ exists b; exact H | discriminate ].
  - change (includes (String c s) t)
      with (prefix t (String c s) || includes s t).
    rewrite orb_true_iff, IH, prefix_spec. split.
    + intros [[b H] | (a & b & H)].
      * exists "", b. exact H.
      * exists (String c a), b. simpl. now rewrite H.
    + intros (a & b & H). destruct a as [ | x a]; simpl in H.
      * left. exists b. exact H.
      * right. exists a, b. congruence.
Qed.

(** A term that occurs in a term that occurs in [s] occurs in [s]. *)
Lemma includes_trans s t t' :
  includes s t' = true -> includes t' t = true -> includes s t = true.
Proof.
  rewrite !includes_spec. intros (a & b & ->) (a' & b' & ->).
  exists (a ++ a'), (b' ++ b). now rewrite !append_assoc3.
Qed.

Lemma is_white_lower c : is_white (lower_char c) = is_white c.
Proof.
  destruct c as [[] [] [] [] [] [] [] []]; reflexivity.
Qed.

Lemma lower_char_idem c : lower_char (lower_char c) = lower_char c.
Proof.
  destruct c as [[] [] [] [] [] [] [] []]; reflexivity.
Qed.

Lemma toLowerCase_idem s : toLowerCase (toLowerCase s) = toLowerCase s.
Proof.
  induction s as [ | c s IH]; simpl; [ reflexivity | ].
  now rewrite lower_char_idem, IH.
Qed.

Lemma toLowerCase_empty s : String.eqb (toLowerCase s) "" = String.eqb s "".
Proof. destruct s; reflexivity. Qed.

Lemma trimStart_lower s : trimStart (toLowerCase s) = toLowerCase (trimStart s).
Proof.
  induction s as [ | c s IH]; simpl; [ reflexivity | ].
  rewrite is_white_lower. destruct (is_white c); [ exact IH | reflexivity ].
Qed.

Lemma trimEnd_lower s : trimEnd (toLowerCase s) = toLowerCase (trimEnd s).
Proof.
  induction s as [ | c s IH]; simpl; [ reflexivity | ].
  rewrite is_white_lower, IH, toLowerCase_empty.
  destruct (is_white c && String.eqb (trimEnd s) ""); reflexivity.
Qed.

(** Lowering the case and trimming commute. *)
Lemma trim_lower s : trim (toLowerCase s) = toLowerCase (trim s).
Proof. unfold trim. now rewrite trimStart_lower, trimEnd_lower. Qed.

(** X1. The students found for a search term, for an ASCII term and
    students whose names, identifiers and addresses are ASCII.  A term
    that is empty or all white space finds nobody.  Otherwise a student is
    found exactly when it is one of the students and the term, in lower
    case, occurs in the lower case of its full name, of its student
    identifier or of its e-mail address. *)
Theorem filteredStudents_finds_exactly :
  forall (searchTerm : string) (students : list Student),
    ascii_only searchTerm = true ->
    forallb ascii_student students = true ->
    (trim searchTerm = "" -> filteredStudents searchTerm students = []) /\
    (trim searchTerm <> "" ->
     forall student,
       In student (filteredStudents searchTerm students) <->
       In student students /\
       exists field a b,
         (field = fullName student \/ field = s_studentId student \/
          field = email student) /\
         toLowerCase field = a ++ toLowerCase searchTerm ++ b).
Proof.
  intros t l _ _. unfold filteredStudents. split.
  - intros ->. reflexivity.
  - intro H. apply String.eqb_neq in H. rewrite H. simpl.
    intro st. rewrite filter_In. unfold matches.
    rewrite !orb_true_iff, !includes_spec.
    split.
    + intros [Hin [[(a & b & E) | (a & b & E)] | (a & b & E)]];
        (split; [ exact Hin | ]).
      * exists (fullName st), a, b. tauto.
      * exists (s_studentId st), a, b. tauto.
      * exists (email st), a, b. tauto.
    + intros [Hin (f & a & b & [-> | [-> | ->]] & E)];
        (split; [ exact Hin | ]); eauto.
Qed.

(** The theorem at the two sample students and the term "HASS": only
    the first is found, by its name. *)
Lemma filteredStudents_finds_exactly_witness :
  filteredStudents "HASS" Sample2.students = [Sample2.ali] /\
  (In Sample2.ali (filteredStudents "HASS" Sample2.students) <->
   In Sample2.ali Sample2.students /\
   exists field a b,
     (field = fullName Sample2.ali \/ field = s_studentId Sample2.ali \/
      field = email Sample2.ali) /\
     toLowerCase field = a ++ toLowerCase "HASS" ++ b).
Proof.
  split; [ reflexivity | ].
  apply (filteredStudents_finds_exactly "HASS" Sample2.students).
  - reflexivity.
  - reflexivity.
  - discriminate.
Defined.

(** X2. The search does not see the case of the term: two ASCII terms
    that differ only in the case of their letters find the same students,
    among students whose names, identifiers and addresses are ASCII. *)
Theorem filteredStudents_ignores_case :
  forall (t1 t2 : string) (students : list Student),
    ascii_only t1 = true -> ascii_only t2 = true ->
    forallb ascii_student students = true ->
    toLowerCase t1 = toLowerCase t2 ->
    filteredStudents t1 students = filteredStudents t2 students.
Proof.
  intros t1 t2 l _ _ _ E. unfold filteredStudents.
  assert (B : String.eqb (trim t1) "" = String.eqb (trim t2) "").
  { rewrite <- (toLowerCase_empty (trim t1)), <- (toLowerCase_empty (trim t2)).
    now rewrite <- !trim_lower, E. }
  rewrite B, E. reflexivity.
Qed.

Lemma filteredStudents_ignores_case_witness :
  filteredStudents "ALI" Sample2.students
  = filteredStudents "ali" Sample2.students.
Proof.
  apply (filteredStudents_ignores_case "ALI" "ali" Sample2.students);
    reflexivity.
Defined.

(** X3. Refining a search, for ASCII terms and students whose names,
    identifiers and addresses are ASCII: when a term that is not blank
    occurs in a longer term (case apart), searching the longer term among
    the students found for the shorter one finds the same students as
    searching it among all of them, so every student found for the longer
    term was found for the shorter one. *)
Theorem filteredStudents_refines :
  forall (t t' : string) (students : list Student),
    ascii_only t = true -> ascii_only t' = true ->
    forallb ascii_student students = true ->
    trim t <> "" ->
    includes (toLowerCase t') (toLowerCase t) = true ->
    filteredStudents t' (filteredStudents t students)
    = filteredStudents t' students /\
    incl (filteredStudents t' students) (filteredStudents t students).
Proof.
  intros t t' l _ _ _ Ht Hsub.
  assert (Himp : forall st, matches (toLowerCase t') st = true ->
                            matches (toLowerCase t) st = true).
  { intro st. unfold matches. rewrite !orb_true_iff.
    intros [[H | H] | H];
      [ left; left | left; right | right ];
      exact (includes_trans _ _ _ H Hsub). }
  assert (E : filteredStudents t' (filteredStudents t l) = filteredStudents t' l).
  { unfold filteredStudents. apply String.eqb_neq in Ht. rewrite Ht.
    destruct (String.eqb (trim t') ""); [ reflexivity | ]. simpl.
    induction l as [ | st l IH]; simpl; [ reflexivity | ].
    destruct (matches (toLowerCase t) st) eqn:M; simpl.
    - rewrite IH. reflexivity.
    - destruct (matches (toLowerCase t') st) eqn:M'; [ | exact IH ].
      apply Himp in M'. congruence. }
  split; [ exact E | ].
  intros st Hin. rewrite <- E in Hin.
  unfold filteredStudents at 1 in Hin.
  destruct (String.eqb (trim t') ""); [ contradiction | ].
  apply filter_In in Hin. tauto.
Qed.

Lemma filteredStudents_refines_witness :
  filteredStudents "Ali H" (filteredStudents "ali" Sample2.students)
  = filteredStudents "Ali H" Sample2.students /\
  incl (filteredStudents "Ali H" Sample2.students)
       (filteredStudents "ali" Sample2.students).
Proof.
  apply (filteredStudents_refines "ali" "Ali H" Sample2.students).
  - reflexivity.
  - reflexivity.
  - reflexivity.
  - discriminate.
  - reflexivity.
Defined.

End StudentSearchFacts.

(** ** Opening the form and confirming what it shows *)
Module RoundTrips.
Import Schema PaymentForm JS JSFacts.

(** The decimal of an integer is never the decimal without digits. *)
Lemma to_int_not_nil z : Z.to_int z <> Decimal.Pos Decimal.Nil /\
                         Z.to_int z <> Decimal.Neg Decimal.Nil.
Proof.
  assert (E : Z.to_int z = Decimal.norm (Z.to_int z))
    by (rewrite <- (DecimalZ.to_of (Z.to_int z)), DecimalZ.of_to; reflexivity).
  split; intro H; rewrite H in E; discriminate.
Qed.

(** The text of an integer reads back as that integer. *)
Lemma parseFloat_toString z : parseFloat (toString (of_Z z)) = of_Z z.
Proof.
  unfold toString, of_Z. rewrite Qfloor_Z.
  destruct (to_int_not_nil z) as [H1 H2].
  assert (P := NilZero.isi (Z.to_int z) H1 H2).
  unfold parseFloat.
  destruct (String.eqb_spec (NilZero.string_of_int (Z.to_int z)) "Infinity")
    as [E | _]; [ rewrite E in P; discriminate | ].
  destruct (String.eqb_spec (NilZero.string_of_int (Z.to_int z)) "-Infinity")
    as [E | _]; [ rewrite E in P; discriminate | ].
  rewrite P, DecimalZ.of_to. reflexivity.
Qed.

(** [Math.round] keeps an integer. *)
Lemma Qfloor_half z : Qfloor (inject_Z z + (1 # 2)) = z.
Proof.
  assert (H1 := Qfloor_le (inject_Z z + (1 # 2))).
  assert (H2 := Qlt_floor (inject_Z z + (1 # 2))).
  rewrite inject_Z_plus in H2. change (inject_Z 1) with 1 in H2.
  assert (L1 : inject_Z (Qfloor (inject_Z z + (1 # 2))) < inject_Z (z + 1))
    by (rewrite inject_Z_plus; change (inject_Z 1) with 1; lra).
  assert (L2 : inject_Z z < inject_Z (Qfloor (inject_Z z + (1 # 2)) + 1))
    by (rewrite inject_Z_plus; change (inject_Z 1) with 1; lra).
  rewrite <- Zlt_Qlt in L1, L2. lia.
Qed.

Lemma Math_round_integer p z : p == inject_Z z -> Math_round (Fin p) = of_Z z.
Proof.
  intro E. unfold Math_round. rewrite E, Qfloor_half. reflexivity.
Qed.

(** The scholarship state the form opens with reads back as the rounded
    stored percentage. *)
Lemma scholarship_state_reads_back s acc p :
  account0 (Some s) = Some acc -> scholarship acc = Some (Fin p) ->
  parseFloat (scholarshipPercentage_init (Some s)) =n= Math_round (Fin p).
Proof.
  intros Ea Ep. unfold scholarshipPercentage_init, account_opt.
  rewrite Ea, Ep. destruct (truthy (Fin p)) eqn:T.
  - unfold Math_round. rewrite parseFloat_toString. apply num_eq_refl.
  - apply falsy_Fin in T. rewrite (Math_round_integer p 0 T). reflexivity.
Qed.

(** X4. Opening the form on an account and confirming the scholarship
    as shown sends the stored percentage rounded to the nearest integer, a
    half going up: a whole percentage is sent back unchanged, any other is
    changed by the confirmation. *)
Theorem scholarship_confirmed_is_rounded :
  forall (s : Student) (acc : StudentAccount) (p : Q),
    account0 (Some s) = Some acc -> scholarship acc = Some (Fin p) ->
    exists u v,
      handleScholarshipChange (Some s) (init (Some s)) = Some u /\
      u_scholarship u = Some v /\ u_discount u = None /\
      v =n= Math_round (Fin p) /\
      (forall z : Z, p == inject_Z z -> v =n= Fin p).
Proof.
  intros s acc p Ea Ep.
  exists (mkUpdateCall (s_id s) (paidType_init (Some s)) None None
            (Some (parseFloat (scholarshipPercentage_init (Some s))))).
  exists (parseFloat (scholarshipPercentage_init (Some s))).
  assert (R := scholarship_state_reads_back s acc p Ea Ep).
  repeat split; try exact R.
  intros z E. rewrite (Math_round_integer p z E) in R.
  eapply num_eq_trans; [ exact R | ]. simpl. symmetry. exact E.
Qed.

Lemma scholarship_confirmed_is_rounded_witness :
  exists u v,
    handleScholarshipChange (Some Sample2.student_800)
      (init (Some Sample2.student_800)) = Some u /\
    u_scholarship u = Some v /\ u_discount u = None /\
    v =n= Math_round (Fin 25) /\
    (forall z : Z, 25 == inject_Z z -> v =n= Fin 25).
Proof.
  apply (scholarship_confirmed_is_rounded Sample2.student_800
           Sample2.account_800 25); reflexivity.
Defined.

End RoundTrips.

(** ** The form on missing or unusual data *)
Module FormEdges.
Import Schema PaymentForm JS JSFacts.
Local Open Scope string_scope.

(** X9. Every update the form requests carries the paid type its select
    holds.  On an account without a stored paid type that is "1", which is
    none of the paid types offered; so confirming a paid type, a discount
    or a scholarship on such an account, without choosing a paid type
    first, sends "1" as the paid type. *)
Theorem updates_carry_paidType :
  forall (s : Student) (acc : StudentAccount),
    account0 (Some s) = Some acc ->
    (forall st u,
       handlePaidTypeChange (Some s) st = Some u \/
       handleDiscountChange (Some s) st = Some u \/
       handleScholarshipChange (Some s) st = Some u ->
       u_paidType u = st_paidType st /\ u_id u = s_id s) /\
    (forall t, paidType acc = Some t -> t <> "" ->
               st_paidType (init (Some s)) = t) /\
    (paidType acc = None \/ paidType acc = Some "" ->
     st_paidType (init (Some s)) = "1" /\
     ~ In (st_paidType (init (Some s))) PAID_TYPES).
Proof.
  intros s acc Ea. split; [ | split ].
  - intros st u [H | [H | H]]; injection H as <-; split; reflexivity.
  - intros t Et Hne. cbn [init st_paidType]. unfold paidType_init.
    rewrite Ea, Et. apply String.eqb_neq in Hne. rewrite Hne. reflexivity.
  - intro H.
    assert (E : st_paidType (init (Some s)) = "1").
    { cbn [init st_paidType]. unfold paidType_init. rewrite Ea.
      destruct H as [-> | ->]; reflexivity. }
    split; [ exact E | ]. rewrite E. simpl.
    intros [H1 | [H1 | [H1 | [H1 | []]]]]; discriminate.
Qed.

Lemma updates_carry_paidType_witness :
  st_paidType (init (Some Sample2.student_no_paidType)) = "1" /\
  ~ In (st_paidType (init (Some Sample2.student_no_paidType))) PAID_TYPES.
Proof.
  destruct (updates_carry_paidType Sample2.student_no_paidType
              Sample2.account_no_paidType eq_refl) as (_ & _ & H).
  apply H. left. reflexivity.
Defined.

End FormEdges.

(** ** Operations on the stored accounts *)
Module StoreFacts.
Import Schema Store.

Lemma In_replace_new i x c a :
  find (fun a => String.eqb (id a) i) c = Some a -> In x (replace i x c).
Proof.
  induction c as [ | b c IH]; simpl; [ discriminate | ].
  destruct (String.eqb (id b) i); simpl; [ left; reflexivity | ].
  intro H. right. exact (IH H).
Qed.

Lemma studentIds_replace i x c a :
  find (fun a => String.eqb (id a) i) c = Some a ->
  studentId x = studentId a ->
  map studentId (replace i x c) = map studentId c.
Proof.
  induction c as [ | b c IH]; simpl; [ discriminate | ].
  destruct (String.eqb (id b) i); simpl.
  - intros H E. injection H as ->. now rewrite E.
  - intros H E. now rewrite (IH H E).
Qed.

Lemma NoDup_map_eq {A B : Type} (g : A -> B) (l : list A) (x y : A) :
  NoDup (map g l) -> In x l -> In y l -> g x = g y -> x = y.
Proof.
  induction l as [ | a l IH]; simpl; intros Hn Hx Hy E; [ contradiction | ].
  inversion Hn as [ | ? ? Ha Hl]; subst.
  destruct Hx as [-> | Hx]; destruct Hy as [-> | Hy]; auto.
  - exfalso. apply Ha. rewrite E. apply in_map. exact Hy.
  - exfalso. apply Ha. rewrite <- E. apply in_map. exact Hx.
Qed.

(** X14. Closing an account does not free its student: in a collection
    whose identifiers and students are distinct, deactivating a stored
    account succeeds and stores it as closed, and creating another account
    for a student who had one still fails with [DuplicateAccount]. *)
Theorem closed_account_blocks_create :
  forall (i : string) (c : accounts) (old : StudentAccount),
    unique c ->
    find (fun a => String.eqb (id a) i) c = Some old ->
    exists c',
      update i Sample2.deactivate c = inl c' /\
      In (Sample2.deactivate old) c' /\
      closed (Sample2.deactivate old) = true /\
      forall a, has_studentId (studentId a) c = true ->
                create a c' = inr DuplicateAccount.
Proof.
  intros i c old [Hid Hsid] Hf.
  assert (Ho := Hf). apply find_some in Ho. destruct Ho as [Hin Ei].
  exists (replace i (Sample2.deactivate old) c).
  assert (Hfree : has_studentId (studentId (Sample2.deactivate old))
                    (others i c) = false).
  { destruct (has_studentId (studentId (Sample2.deactivate old)) (others i c))
      eqn:E; [ | reflexivity ].
    apply AccountUniqueness.has_studentId_spec in E.
    apply in_map_iff in E. destruct E as (b & Eb & Hb).
    unfold others in Hb. apply filter_In in Hb. destruct Hb as [Hb Nb].
    assert (b = old)
      by (apply (NoDup_map_eq studentId c); assumption).
    subst b. rewrite Ei in Nb. discriminate. }
  split.
  - unfold update. rewrite Hf.
    change (id (Sample2.deactivate old)) with (id old).
    rewrite Ei. cbn [negb]. rewrite Hfree. reflexivity.
  - split; [ exact (In_replace_new i _ c old Hf) | ].
    split; [ reflexivity | ].
    intros a Ha. unfold create.
    replace (has_studentId (studentId a)
               (replace i (Sample2.deactivate old) c)) with true;
      [ reflexivity | ].
    symmetry. apply AccountUniqueness.has_studentId_spec.
    rewrite (studentIds_replace i (Sample2.deactivate old) c old Hf eq_refl).
    apply AccountUniqueness.has_studentId_spec. exact Ha.
Qed.

Lemma closed_account_blocks_create_witness :
  exists c',
    update "acc-1" Sample2.deactivate [Sample.account_1000] = inl c' /\
    In (Sample2.deactivate Sample.account_1000) c' /\
    closed (Sample2.deactivate Sample.account_1000) = true /\
    forall a, has_studentId (studentId a) [Sample.account_1000] = true ->
              create a c' = inr DuplicateAccount.
Proof.
  apply (closed_account_blocks_create "acc-1" [Sample.account_1000]
           Sample.account_1000).
  - split; (constructor; [ intros [] | constructor ]).
  - reflexivity.
Defined.

End StoreFacts.

(** ** More on validation and on what the form shows *)
Module FormMore.
Import Schema PaymentForm JS JSFacts.
Local Open Scope string_scope.

Lemma In_check_min1 msg s i : In i (check_min1 msg s) <-> i = msg /\ s = "".
Proof.
  unfold check_min1. destruct s; simpl.
  - split; [ intros [H | []]; auto | intros [-> _]; left; reflexivity ].
  - split; [ contradiction | intros [_ H]; discriminate ].
Qed.

Lemma In_check_date d i :
  In i (check_date d) <-> i = Payment_date_is_required /\ d = None.
Proof.
  destruct d; simpl.
  - split; [ contradiction | intros [_ H]; discriminate ].
  - split; [ intros [H | []]; auto | intros [-> _]; left; reflexivity ].
Qed.

Lemma In_check_amount a i :
  In i (check_amount a) <->
  (i = Expected_number_received_nan /\ a = NaN) \/
  (i = Amount_must_be_positive /\ a <> NaN /\ gt0 a = false).
Proof.
  unfold check_amount. destruct a as [q | | | ]; simpl.
  - destruct (sgn q); simpl; split;
      try contradiction;
      try (intros [[_ H] | (_ & _ & H)]; discriminate);
      try (intros [H | []]; right; repeat split; auto; discriminate);
      try (intros [[_ H] | [-> _]]; [ discriminate | left; reflexivity ]).
  - split; [ contradiction | intros [[_ H] | (_ & _ & H)]; discriminate ].
  - split.
    + intros [H | []]. right. repeat split; auto. discriminate.
    + intros [[_ H] | [-> _]]; [ discriminate | left; reflexivity ].
  - split.
    + intros [H | []]. left. auto.
    + intros [[-> _] | (_ & H & _)]; [ left; reflexivity | congruence ].
Qed.

(** X15. Each message of the payment form is reported exactly when its
    own field is wrong, whatever the other fields hold: "Amount must be
    positive" for an amount that is a number and not above zero, "Expected
    number, received nan" for NaN, and the three "required" messages for a
    missing date, an empty type and an empty method. *)
Theorem formSchema_reports_each_field :
  forall (v : FormValues) (i : issue),
    In i (formSchema v) <->
    match i with
    | Expected_number_received_nan => amount v = NaN
    | Amount_must_be_positive => amount v <> NaN /\ gt0 (amount v) = false
    | Payment_date_is_required => paymentDate v = None
    | Payment_type_is_required => type v = ""
    | Payment_method_is_required => paymentMethod v = ""
    end.
Proof.
  intros v i. unfold formSchema.
  rewrite !in_app_iff, In_check_amount, In_check_date, !In_check_min1.
  destruct i; split; intro H;
    repeat match goal with
           | H : _ \/ _ |- _ => destruct H
           | H : _ /\ _ |- _ => destruct H
           end;
    try discriminate; try tauto; auto 10.
Qed.

(** An offered percentage is the text of the integer it reads as. *)
Lemma offered_text p z :
  In p DISCOUNT_PERCENTAGES -> parseFloat p = of_Z z -> toString (of_Z z) = p.
Proof.
  unfold DISCOUNT_PERCENTAGES. simpl.
  intros [H | [H | [H | [H | [H | [H | [H | [H | [H | [H | [H | []]]]]]]]]]]];
    subst p; intro E; vm_compute in E; injection E as <-; reflexivity.
Qed.

(** X17. The discount select shows what was chosen: when the stored
    discount is the share of a fee that is not zero that one of the offered
    percentages stands for, the form opens with that very option as its
    discount percentage. *)
Theorem discount_select_shows_choice :
  forall (s : Student) (acc : StudentAccount) (p : string) (z : Z) (d f : Q),
    In p DISCOUNT_PERCENTAGES -> parseFloat p = of_Z z ->
    account0 (Some s) = Some acc ->
    tuitionFee acc = Fin f -> ~ (f == 0)%Q ->
    discount acc = Some (Fin d) -> (d == inject_Z z / 100 * f)%Q ->
    discountPercentage_init (Some s) = p.
Proof.
  intros s acc p z d f Hin Hp Ea Ef Hf Ed Hd.
  rewrite <- (offered_text p z Hin Hp).
  unfold discountPercentage_init. rewrite Ea, Ed.
  destruct (truthy (Fin d)) eqn:T.
  - assert (Tf : truthy (Fin f) = true) by (apply truthy_Fin; exact Hf).
    unfold discount_percent, discount_divisor.
    rewrite Ef, or_default_Some, Tf, (div_Fin d f Tf).
    cbn [mul of_Z].
    assert (E : (d / f * inject_Z 100 == inject_Z z)%Q).
    { rewrite Hd. change (inject_Z 100) with 100%Q. field. exact Hf. }
    rewrite (RoundTrips.Math_round_integer _ z E). reflexivity.
  - apply falsy_Fin in T.
    assert (E : (inject_Z z * f == 0)%Q).
    { assert (H : (inject_Z z * f == inject_Z z / 100 * f * 100)%Q) by field.
      rewrite H, <- Hd, T. ring. }
    apply Qmult_integral in E. destruct E as [E | E]; [ | contradiction ].
    assert (z = 0%Z).
    { apply inject_Z_injective. exact E. }
    subst z. reflexivity.
Qed.

Lemma discount_select_shows_choice_witness :
  discountPercentage_init (Some Sample2.student_800) = "15".
Proof.
  apply (discount_select_shows_choice Sample2.student_800 Sample2.account_800
           "15" 15 120 800).
  - simpl. tauto.
  - reflexivity.
  - reflexivity.
  - reflexivity.
  - discriminate.
  - reflexivity.
  - reflexivity.
Defined.

End FormMore.

(** ** Binary64 arithmetic: when a result is NaN, and the product by 1 *)
Module Binary64Numbers.
Import PrimFloat Number64.
Local Open Scope float_scope.

(** Shifting a mantissa that is not negative leaves it not negative. *)
Lemma shr_1_nonneg mrs : (0 <= shr_m mrs)%Z -> (0 <= shr_m (shr_1 mrs))%Z.
Proof.
  destruct mrs as [m r s]. simpl. destruct m as [ | p | p]; simpl; try lia.
  destruct p; simpl; lia.
Qed.

Lemma iter_shr_1_nonneg p mrs :
  (0 <= shr_m mrs)%Z -> (0 <= shr_m (iter_pos shr_1 p mrs))%Z.
Proof.
  revert mrs. induction p as [p IH | p IH | ]; simpl; intros mrs H.
  - apply IH, IH, shr_1_nonneg, H.
  - apply IH, IH, H.
  - apply shr_1_nonneg, H.
Qed.

Lemma shr_nonneg mrs e n :
  (0 <= shr_m mrs)%Z -> (0 <= shr_m (fst (shr mrs e n)))%Z.
Proof.
  intro H. unfold shr. destruct n; simpl; try exact H.
  apply iter_shr_1_nonneg, H.
Qed.

Lemma shr_record_of_loc_m m l : shr_m (shr_record_of_loc m l) = m.
Proof. destruct l as [ | []]; reflexivity. Qed.

Lemma shr_fexp_nonneg m e l :
  (0 <= m)%Z -> (0 <= shr_m (fst (shr_fexp prec emax m e l)))%Z.
Proof.
  intro H. unfold shr_fexp. apply shr_nonneg.
  rewrite shr_record_of_loc_m. exact H.
Qed.

Lemma round_nearest_even_nonneg m l :
  (0 <= m)%Z -> (0 <= round_nearest_even m l)%Z.
Proof.
  intro H. unfold round_nearest_even. destruct l as [ | []]; try lia.
  destruct (Z.even m); lia.
Qed.

(** Rounding never gives NaN: it gives a zero, a finite number or, on
    overflow, an infinity. *)
Lemma binary_round_aux_not_nan s m e l :
  (0 <= m)%Z -> binary_round_aux prec emax s m e l <> S754_nan.
Proof.
  intro H. unfold binary_round_aux.
  assert (H1 := shr_fexp_nonneg m e l H).
  destruct (shr_fexp prec emax m e l) as [mrs' e'] eqn:E1. simpl in H1.
  assert (H2 := shr_fexp_nonneg _ e' loc_Exact
                  (round_nearest_even_nonneg (shr_m mrs')
                     (loc_of_shr_record mrs') H1)).
  destruct (shr_fexp prec emax
              (round_nearest_even (shr_m mrs') (loc_of_shr_record mrs'))
              e' loc_Exact) as [mrs'' e''] eqn:E2.
  simpl in H2.
  destruct (shr_m mrs'') as [ | p | p]; try discriminate.
  - destruct (Z.leb e'' (emax - prec)); discriminate.
  - lia.
Qed.

Lemma binary_round_not_nan s m e : binary_round prec emax s m e <> S754_nan.
Proof.
  unfold binary_round.
  destruct (shl_align m e (fexp prec emax (Z.pos (digits2_pos m) + e)))
    as [mz ez].
  apply binary_round_aux_not_nan. lia.
Qed.

Lemma binary_normalize_not_nan m e s :
  binary_normalize prec emax m e s <> S754_nan.
Proof.
  unfold binary_normalize.
  destruct m; try discriminate; apply binary_round_not_nan.
Qed.

(** A product is NaN only from a NaN or from an infinity by a zero. *)
Lemma SFmul_nan x y :
  sf_nan (SFmul prec emax x y) =
  sf_nan x || sf_nan y || (sf_inf x && sf_zero y) || (sf_zero x && sf_inf y).
Proof.
  destruct x, y; simpl; try reflexivity.
  destruct (binary_round_aux prec emax (xorb s s0) (Z.pos (m * m0)) (e + e0)
              loc_Exact) eqn:E;
    try reflexivity.
  exfalso. revert E. apply binary_round_aux_not_nan. lia.
Qed.

(** A quotient is NaN only from a NaN, from two infinities or from two
    zeros. *)
Lemma SFdiv_nan x y :
  sf_nan (SFdiv prec emax x y) =
  sf_nan x || sf_nan y || (sf_inf x && sf_inf y) || (sf_zero x && sf_zero y).
Proof.
  destruct x, y; simpl; try reflexivity.
  destruct (SFdiv_core_binary prec emax (Z.pos m) e (Z.pos m0) e0)
    as [[mz ez] lz] eqn:E.
  destruct (binary_round_aux prec emax (xorb s s0) mz ez lz) eqn:E2;
    try reflexivity.
  exfalso. revert E2. apply binary_round_aux_not_nan.
  unfold SFdiv_core_binary in E.
  set (e' := Z.min _ _) in E.
  set (s' := (e - e0 - e')%Z) in E.
  set (m' := match s' with Z.pos _ => _ | _ => _ end) in E.
  assert (0 <= m')%Z.
  { unfold m'. destruct s'; try lia. apply Z.shiftl_nonneg. lia. }
  change IntDef.Z.div_eucl with Z.div_eucl in E.
  destruct (Z.div_eucl m' (Z.pos m0)) as [q r] eqn:E3.
  inversion E; subst.
  assert (H3 := Z_div_mod m' (Z.pos m0) ltac:(lia)). rewrite E3 in H3.
  destruct H3 as [H3 H4]. nia.
Qed.

(** A sum is NaN only from a NaN or from infinities of opposite signs, a
    difference only from a NaN or from infinities of the same sign. *)
Lemma SFadd_nan x y :
  sf_nan (SFadd prec emax x y) =
  sf_nan x || sf_nan y ||
  match x, y with
  | S754_infinity sx, S754_infinity sy => xorb sx sy
  | _, _ => false
  end.
Proof.
  destruct x as [ sx | sx | | sx mx ex], y as [ sy | sy | | sy my ey];
    simpl; try reflexivity.
  - destruct sx, sy; reflexivity.
  - destruct sx, sy; reflexivity.
  - match goal with |- sf_nan ?b = _ => destruct b eqn:E end; try reflexivity.
    exfalso. revert E. apply binary_normalize_not_nan.
Qed.

Lemma SFsub_nan x y :
  sf_nan (SFsub prec emax x y) =
  sf_nan x || sf_nan y ||
  match x, y with
  | S754_infinity sx, S754_infinity sy => Bool.eqb sx sy
  | _, _ => false
  end.
Proof.
  destruct x as [ sx | sx | | sx mx ex], y as [ sy | sy | | sy my ey];
    simpl; try reflexivity.
  - destruct sx, sy; reflexivity.
  - destruct sx, sy; reflexivity.
  - match goal with |- sf_nan ?b = _ => destruct b eqn:E end; try reflexivity.
    exfalso. revert E. apply binary_normalize_not_nan.
Qed.

(** The tests of [PrimFloat] on the specification of a number. *)
Lemma is_nan_Prim2SF x : is_nan x = sf_nan (Prim2SF x).
Proof.
  unfold is_nan. rewrite eqb_spec. unfold SFeqb, SFcompare.
  destruct (Prim2SF x) as [ [] | [] | | [] m e]; simpl; try reflexivity.
  - rewrite Z.compare_refl, Pos.compare_cont_refl. reflexivity.
  - rewrite Z.compare_refl, Pos.compare_cont_refl. reflexivity.
Qed.

Lemma is_zero_Prim2SF x : is_zero x = sf_zero (Prim2SF x).
Proof.
  unfold is_zero. rewrite eqb_spec.
  change (Prim2SF zero) with (S754_zero false).
  unfold SFeqb, SFcompare.
  destruct (Prim2SF x) as [ [] | [] | | [] m e]; reflexivity.
Qed.

Lemma is_infinity_Prim2SF x : is_infinity x = sf_inf (Prim2SF x).
Proof.
  unfold is_infinity. rewrite eqb_spec, abs_spec.
  change (Prim2SF infinity) with (S754_infinity false).
  unfold SFeqb, SFcompare, SFabs.
  destruct (Prim2SF x) as [ [] | [] | | [] m e]; reflexivity.
Qed.

Lemma is_nan_mul x y :
  is_nan (x * y) =
  is_nan x || is_nan y || (is_infinity x && is_zero y)
  || (is_zero x && is_infinity y).
Proof.
  rewrite !is_nan_Prim2SF, !is_infinity_Prim2SF, !is_zero_Prim2SF, mul_spec.
  apply SFmul_nan.
Qed.

Lemma is_nan_div x y :
  is_nan (x / y) =
  is_nan x || is_nan y || (is_infinity x && is_infinity y)
  || (is_zero x && is_zero y).
Proof.
  rewrite !is_nan_Prim2SF, !is_infinity_Prim2SF, !is_zero_Prim2SF, div_spec.
  apply SFdiv_nan.
Qed.

Lemma is_nan_add x y :
  is_infinity y = false -> is_nan (x + y) = is_nan x || is_nan y.
Proof.
  rewrite !is_nan_Prim2SF, !is_infinity_Prim2SF, add_spec, SFadd_nan.
  destruct (Prim2SF x), (Prim2SF y); simpl; try reflexivity; discriminate.
Qed.

Lemma is_nan_sub x y :
  is_infinity y = false -> is_nan (x - y) = is_nan x || is_nan y.
Proof.
  rewrite !is_nan_Prim2SF, !is_infinity_Prim2SF, sub_spec, SFsub_nan.
  destruct (Prim2SF x), (Prim2SF y); simpl; try reflexivity; discriminate.
Qed.

Lemma is_nan_opp x : is_nan (- x) = is_nan x.
Proof.
  rewrite !is_nan_Prim2SF, opp_spec. destruct (Prim2SF x); reflexivity.
Qed.

Lemma is_nan_of_uint63 n : is_nan (of_uint63 n) = false.
Proof.
  rewrite is_nan_Prim2SF, of_uint63_spec.
  destruct (binary_normalize prec emax (Uint63.to_Z n) 0 false) eqn:E;
    try reflexivity.
  exfalso. revert E. apply binary_normalize_not_nan.
Qed.

(** [Math.round] gives NaN for NaN only. *)
Lemma is_nan_Math_round x : is_nan (Math_round x) = is_nan x.
Proof.
  unfold Math_round.
  destruct (Prim2SF x) as [s | s | | s m e] eqn:E; try reflexivity.
  destruct (0 <=? e)%Z; [ reflexivity | ].
  rewrite (is_nan_Prim2SF x), E. simpl.
  destruct s; [ rewrite is_nan_opp | ]; apply is_nan_of_uint63.
Qed.

(** [Math.round] and [parseFloat] at sample values: a tie goes up, also
    below zero; 29/200*100 is just under 14.5 in binary64 and rounds to
    14; the largest number under 0.5 rounds to 0; the infinities and the
    large integers are returned as they are. *)
Lemma Math_round_samples :
  Math_round 2.5 = 3 /\ Math_round (-2.5) = -2 /\ Math_round (-0.5) = -0 /\
  Math_round 0.5 = 1 /\ Math_round ((29 / 200) * 100) = 14 /\
  Math_round (0.5 - 0x1p-54) = 0 /\ Math_round 0x1p+70 = 0x1p+70 /\
  Math_round infinity = infinity /\ Math_round neg_infinity = neg_infinity /\
  is_nan (Math_round nan) = true.
Proof. repeat split. Qed.

Lemma parseFloat_samples :
  parseFloat "0" = Some 0 /\ parseFloat "100" = Some 100 /\
  parseFloat "007" = Some 7 /\ parseFloat "9007199254740993" = Some 0x1p+53 /\
  parseFloat "" = None.
Proof. repeat split. Qed.

Lemma truthy_spec x :
  truthy x = true <-> is_nan x = false /\ is_zero x = false.
Proof.
  unfold truthy. rewrite negb_true_iff, orb_false_iff. tauto.
Qed.

Lemma is_infinity_truthy x : is_infinity x = true -> truthy x = true.
Proof.
  unfold truthy.
  rewrite is_infinity_Prim2SF, is_nan_Prim2SF, is_zero_Prim2SF.
  destruct (Prim2SF x); simpl; congruence.
Qed.

(** A truthy default makes [v || d] truthy; [v || 0] is never NaN. *)
Lemma or_default_truthy v d : truthy d = true -> truthy (or_default v d) = true.
Proof.
  intro H. destruct v as [x | ]; simpl; [ | exact H ].
  destruct (truthy x) eqn:E; assumption.
Qed.

Lemma or_zero_not_nan v : is_nan (or_default v 0) = false.
Proof.
  destruct v as [x | ]; simpl; [ | reflexivity ].
  destruct (truthy x) eqn:T; [ | reflexivity ].
  apply truthy_spec in T. tauto.
Qed.

(** The mantissa of a product by 1 = 2^52 * 2^-52 has 52 more digits. *)
Lemma digits_shift m :
  Z.pos (digits2_pos (4503599627370496 * m)) = (Z.pos (digits2_pos m) + 52)%Z.
Proof.
  cbn [Pos.mul digits2_pos]. rewrite !Pos2Z.inj_succ. lia.
Qed.

Lemma one_times_finite s m e :
  valid_binary (S754_finite s m e) = true ->
  SFmul prec emax (S754_finite false 4503599627370496 (-52)) (S754_finite s m e)
  = S754_finite s m e.
Proof.
  unfold SpecFloat.valid_binary, bounded, canonical_mantissa. intro H.
  apply andb_true_iff in H. destruct H as [Hc Hb].
  apply Z.eqb_eq in Hc.
  unfold SFmul. change (xorb false s) with s.
  unfold binary_round_aux.
  assert (E1 : shr_fexp prec emax (Z.pos (4503599627370496 * m)) (-52 + e)
                 loc_Exact
               = ({| shr_m := Z.pos m; shr_r := false; shr_s := false |}, e)).
  { unfold shr_fexp. unfold Zdigits2. rewrite digits_shift.
    replace (Z.pos (digits2_pos m) + 52 + (-52 + e))%Z
      with (Z.pos (digits2_pos m) + e)%Z by lia.
    rewrite Hc. replace (e - (-52 + e))%Z with 52%Z by lia.
    unfold shr.
    cbn [Pos.mul shr_record_of_loc iter_pos shr_1 shr_m shr_r shr_s orb].
    f_equal. lia. }
  rewrite E1. cbn [shr_m loc_of_shr_record shr_r shr_s round_nearest_even].
  assert (E2 : shr_fexp prec emax (Z.pos m) e loc_Exact
               = ({| shr_m := Z.pos m; shr_r := false; shr_s := false |}, e)).
  { unfold shr_fexp, Zdigits2. rewrite Hc, Z.sub_diag. reflexivity. }
  rewrite E2. cbn [shr_m]. rewrite Hb. reflexivity.
Qed.

(** The product of 1 and a number is that number, exactly. *)
Lemma mul_1_l x : 1 * x = x.
Proof.
  apply Prim2SF_inj. rewrite mul_spec.
  change (Prim2SF 1) with (S754_finite false 4503599627370496 (-52)).
  assert (V := Prim2SF_valid x).
  destruct (Prim2SF x) as [s | s | | s m e]; try reflexivity.
  apply one_times_finite, V.
Qed.

End Binary64Numbers.

(** ** The discount percentage shown first, in binary64 *)
Module DiscountPercentage64.
Import PrimFloat Number64 Form64 Binary64Numbers.
Local Open Scope float_scope.

Lemma discount_divisor_truthy a : truthy (discount_divisor a) = true.
Proof. unfold discount_divisor. apply or_default_truthy. reflexivity. Qed.

(** The divisor is infinite exactly when the stored fee is. *)
Lemma discount_divisor_infinite a :
  is_infinity (discount_divisor a)
  = match tuitionFee a with Some x => is_infinity x | None => false end.
Proof.
  unfold discount_divisor, or_default.
  destruct (tuitionFee a) as [x | ]; [ | reflexivity ].
  destruct (truthy x) eqn:T; [ reflexivity | ].
  destruct (is_infinity x) eqn:I; [ | reflexivity ].
  apply is_infinity_truthy in I. congruence.
Qed.

Lemma is_nan_discount_percent a d :
  truthy d = true ->
  is_nan (discount_percent a d)
  = is_infinity d
    && match tuitionFee a with Some x => is_infinity x | None => false end.
Proof.
  intro Hd. apply truthy_spec in Hd. destruct Hd as [Hn Hz].
  destruct (proj1 (truthy_spec _) (discount_divisor_truthy a)) as [Vn Vz].
  unfold discount_percent.
  rewrite is_nan_Math_round, is_nan_mul, is_nan_div, Hn, Hz, Vn, Vz.
  rewrite discount_divisor_infinite.
  change (is_nan 100) with false. change (is_zero 100) with false.
  change (is_infinity 100) with false.
  rewrite !andb_false_r, !orb_false_r. reflexivity.
Qed.

(** C10, amended.  For every account the divisor [tuitionFee || 1] is
    neither a zero nor NaN: it is 1 when the stored fee is absent, a zero
    or NaN, and the fee otherwise; so the percentage is never computed by
    a division by zero.  The rounded percentage of a truthy discount is
    NaN exactly when the stored discount and the stored fee are both
    infinite; and for every selected student, present or not, with or
    without an account or a discount, the number the form opens on is NaN
    in that case only. *)
Theorem discount_divisor_is_never_zero :
  (forall a, is_zero (discount_divisor a) = false /\
             is_nan (discount_divisor a) = false) /\
  (forall a, tuitionFee a = None -> discount_divisor a = 1) /\
  (forall a x, tuitionFee a = Some x ->
     discount_divisor a = if is_nan x || is_zero x then 1 else x) /\
  (forall a d, truthy d = true ->
     is_nan (discount_percent a d)
     = is_infinity d
       && match tuitionFee a with Some x => is_infinity x | None => false end) /\
  (forall selectedStudent,
     is_nan (discountPercentage_init selectedStudent)
     = match account0 selectedStudent with
       | Some a =>
           match discount a, tuitionFee a with
           | Some d, Some x => is_infinity d && is_infinity x
           | _, _ => false
           end
       | None => false
       end).
Proof.
  split.
  { intro a. assert (H := discount_divisor_truthy a).
    apply truthy_spec in H. tauto. }
  split.
  { intros a H. unfold discount_divisor. rewrite H. reflexivity. }
  split.
  { intros a x H. unfold discount_divisor, or_default, truthy. rewrite H.
    destruct (is_nan x || is_zero x); reflexivity. }
  split; [ exact is_nan_discount_percent | ].
  intro sel. unfold discountPercentage_init.
  destruct (account0 sel) as [a | ]; [ | reflexivity ].
  destruct (discount a) as [d | ]; [ | reflexivity ].
  destruct (truthy d) eqn:T.
  - rewrite (is_nan_discount_percent a d T).
    destruct (tuitionFee a); [ reflexivity | apply andb_false_r ].
  - destruct (is_infinity d) eqn:I.
    + apply is_infinity_truthy in I. congruence.
    + destruct (tuitionFee a); reflexivity.
Qed.

(** C10, against the specification as written: on an account whose
    stored discount and fee are both Infinity the divisor is Infinity and
    the percentage is NaN, which is no defined value; and a stored
    discount of 2^1023 on a fee of 0.5 gives Infinity, by overflow. *)
Lemma discountPercentage_of_infinities_is_NaN :
  discount_divisor (Sample64.account infinity None (Some infinity)) = infinity /\
  is_nan (discountPercentage_init (Some Sample64.student_infinite)) = true /\
  discountPercentage_init (Some Sample64.student_huge) = infinity.
Proof. repeat split. Qed.

End DiscountPercentage64.

(** ** The discount, in binary64 *)
Module Discount64.
Import PrimFloat Number64 Form64 Binary64Numbers.
Local Open Scope float_scope.

(** The percentages offered are read as numbers whose hundredth is
    finite. *)
Lemma offered_percentage text :
  In text PaymentForm.DISCOUNT_PERCENTAGES ->
  exists p, parseFloat text = Some p /\
            is_nan (p / 100) = false /\ is_infinity (p / 100) = false.
Proof.
  unfold PaymentForm.DISCOUNT_PERCENTAGES. simpl.
  intros [H | [H | [H | [H | [H | [H | [H | [H | [H | [H | [H | []]]]]]]]]]]];
    subst text; eexists; (split; [ reflexivity | split; reflexivity ]).
Qed.

(** C5, amended.  For every selected student, every paid type, status
    and percentage, [handleDiscountChange] requests the update: it has no
    failure for a discount above the fee.  The amount it sends is the
    binary64 product [(p / 100) * (tuitionFee || 0)], not rounded to a
    money unit: at 100% it is the fee itself; for every percentage offered
    and every fee that is not infinite it is a number; 50% of 1000.25 is
    500.125, 10% of 3 is 0.30000000000000004, and 150% of 1000 is sent as
    1500. *)
Theorem handleDiscountChange_sends_the_unrounded_product :
  (forall s paidType studentStatus p,
     exists u,
       handleDiscountChange (Some s) paidType studentStatus p = Some u /\
       u_id u = id s /\
       u_discount u
       = Some ((p / 100) * or_default (read tuitionFee (account0 (Some s))) 0)) /\
  (forall selectedStudent,
     discountAmount selectedStudent 100
     = or_default (read tuitionFee (account0 selectedStudent)) 0) /\
  (forall text, In text PaymentForm.DISCOUNT_PERCENTAGES ->
     exists p, parseFloat text = Some p /\
       forall selectedStudent,
         is_infinity (or_default (read tuitionFee (account0 selectedStudent)) 0)
         = false ->
         is_nan (discountAmount selectedStudent p) = false) /\
  discountAmount (Some Sample64.student_1000_25) 50 = 500.125 /\
  discountAmount (Some Sample64.student_3) 10 = 0x1.3333333333334p-2 /\
  discountAmount (Some Sample64.student_1000) 150 = 1500.
Proof.
  split.
  { intros s pt st p. eexists. split; [ reflexivity | ]. split; reflexivity. }
  split.
  { intro sel. unfold discountAmount. change (100 / 100) with 1.
    apply mul_1_l. }
  split.
  { intros text Hin.
    destruct (offered_percentage text Hin) as (p & Hp & Hn & Hi).
    exists p. split; [ exact Hp | ]. intros sel Hfin.
    unfold discountAmount.
    rewrite is_nan_mul, Hn, Hi, Hfin, or_zero_not_nan, andb_false_r.
    reflexivity. }
  repeat split.
Qed.



End Discount64.

(** ** The fee card, in binary64 *)
Module FeeCard64.
Import PrimFloat Number64 Form64 Binary64Numbers.
Local Open Scope float_scope.

(** C6, amended.  The scholarship is sent as a percentage and the
    discount as an amount.  [handleScholarshipChange] sends the percentage
    chosen, whatever the account, and no discount; the scholarship shown is
    derived at each display from the stored percentage and the fee of that
    moment as the binary64 product [(scholarship / 100) * tuitionFee],
    which is the amount that a discount of the same percentage would be
    on that fee: at 100% it is the fee itself, and 10% of 1000 and of 2000
    are 100 and 200.  [handleDiscountChange] sends an amount derived once from the fee
    of that moment (at 100%, that fee), and the discount shown is the
    stored amount, the same for two accounts with the same stored discount
    whatever their fees. *)
Theorem scholarship_is_rederived_discount_is_sent_as_amount :
  (forall s paidType p,
     exists u,
       handleScholarshipChange (Some s) paidType p = Some u /\
       u_scholarship u = Some p /\ u_discount u = None) /\
  (forall i l a p,
     scholarship a = Some p -> truthy p = true ->
     SCHOLARSHIP (Some (mkStudent i (Some (a :: l))))
     = inl (discountAmount (Some (mkStudent i (Some (a :: l)))) p)) /\
  (forall i l a,
     scholarship a = Some 100 ->
     SCHOLARSHIP (Some (mkStudent i (Some (a :: l))))
     = inl (or_default (tuitionFee a) 0)) /\
  SCHOLARSHIP (Some Sample64.student_1000) = inl 100 /\
  SCHOLARSHIP (Some Sample64.student_2000) = inl 200 /\
  (forall s paidType studentStatus,
     exists u,
       handleDiscountChange (Some s) paidType studentStatus 100 = Some u /\
       u_discount u = Some (or_default (read tuitionFee (account0 (Some s))) 0) /\
       u_scholarship u = None) /\
  (forall i i' l l' a a',
     discount a = discount a' ->
     DISCOUNT (Some (mkStudent i (Some (a :: l))))
     = DISCOUNT (Some (mkStudent i' (Some (a' :: l'))))).
Proof.
  split.
  { intros s pt p. eexists. split; [ reflexivity | ]. split; reflexivity. }
  split.
  { intros i l a p H T. unfold SCHOLARSHIP, cell, discountAmount. simpl.
    rewrite H. unfold or_default at 1. rewrite T. reflexivity. }
  split.
  { intros i l a H. unfold SCHOLARSHIP, cell. simpl. rewrite H.
    change (or_default (Some 100) 0 / 100) with 1. rewrite mul_1_l.
    reflexivity. }
  split; [ reflexivity | ]. split; [ reflexivity | ].
  split.
  { intros s pt st. eexists. split; [ reflexivity | ].
    split; [ | reflexivity ]. simpl. f_equal.
    change (discountAmount (Some s) 100
            = or_default (read tuitionFee (account0 (Some s))) 0).
    unfold discountAmount. change (100 / 100) with 1. apply mul_1_l. }
  intros i i' l l' a a' H. unfold DISCOUNT, cell. simpl. rewrite H.
  reflexivity.
Qed.

(** C6, against the specification as written: with a scholarship of
    10%, the amount shown for a fee of 3 is 0.30000000000000004 and for a
    fee of 30, ten times that fee, it is 3, whereas ten times the former
    amount is 3.0000000000000004. *)
Lemma SCHOLARSHIP_is_not_proportional :
  SCHOLARSHIP (Some Sample64.student_3) = inl 0x1.3333333333334p-2 /\
  SCHOLARSHIP (Some Sample64.student_30) = inl 3 /\
  10 * 3 = 30 /\
  10 * 0x1.3333333333334p-2 = 0x1.8000000000001p+1 /\
  (0x1.8000000000001p+1 =? 3) = false.
Proof. repeat split. Qed.

Lemma or_zero_finite v :
  finite_or_absent v = true ->
  is_nan (or_default v 0) = false /\ is_infinity (or_default v 0) = false.
Proof.
  destruct v as [x | ]; simpl; [ | intros _; split; reflexivity ].
  unfold PrimFloat.is_finite. rewrite negb_true_iff, orb_false_iff.
  intros [Hn Hi]. destruct (truthy x); split; try assumption; reflexivity.
Qed.

(** X7. The balance shown is a number whenever the stored fee, forwarded
    balance, discount and paid amount are each absent or finite: it is
    never NaN, though it can be infinite by overflow. *)
Theorem BALANCE_is_a_number :
  forall selectedStudent a,
    card_account0 selectedStudent = inl a ->
    finite_or_absent (read tuitionFee a) = true ->
    finite_or_absent (read forwarded a) = true ->
    finite_or_absent (read discount a) = true ->
    finite_or_absent (read paidAmount a) = true ->
    exists b, BALANCE selectedStudent = inl b /\ is_nan b = false.
Proof.
  intros sel a Ha Ht Hf Hd Hp. unfold BALANCE, cell. rewrite Ha.
  eexists. split; [ reflexivity | ].
  destruct (or_zero_finite _ Ht) as [Tn _].
  destruct (or_zero_finite _ Hf) as [Fn Fi].
  destruct (or_zero_finite _ Hd) as [Dn Di].
  destruct (or_zero_finite _ Hp) as [Pn Pi].
  rewrite (is_nan_sub _ _ Pi), (is_nan_sub _ _ Di), (is_nan_add _ _ Fi).
  rewrite Tn, Fn, Dn, Pn. reflexivity.
Qed.

(** The theorem at a fee and a forwarded balance of 2^1023 each, whose
    sum overflows. *)
Lemma BALANCE_is_a_number_witness :
  exists b,
    BALANCE (Some (Sample64.student Sample64.account_large)) = inl b /\
    is_nan b = false.
Proof.
  apply (BALANCE_is_a_number (Some (Sample64.student Sample64.account_large))
           (Some Sample64.account_large));
    reflexivity.
Defined.

(** X8. The fee card reads [studentAccount[0]] without a guard: a cell
    throws exactly when a student is selected whose object has no
    [studentAccount], and then every cell does; without a student, and for
    a student whose list of accounts is empty, every cell shows zero. *)
Theorem fee_card_throws_without_studentAccount :
  forall selectedStudent,
    (BALANCE selectedStudent = inr TypeError <->
     exists s, selectedStudent = Some s /\ studentAccount s = None) /\
    (forall c,
       In c [TUITION_FEE; SCHOLARSHIP; FORWARDED; DISCOUNT; PAID; BALANCE] ->
       (c selectedStudent = inr TypeError <->
        BALANCE selectedStudent = inr TypeError)) /\
    (selectedStudent = None \/
     (exists s, selectedStudent = Some s /\ studentAccount s = Some []) ->
     forall c,
       In c [TUITION_FEE; SCHOLARSHIP; FORWARDED; DISCOUNT; PAID; BALANCE] ->
       c selectedStudent = inl 0).
Proof.
  intro sel.
  assert (Hc : forall c,
             In c [TUITION_FEE; SCHOLARSHIP; FORWARDED; DISCOUNT; PAID; BALANCE] ->
             exists f, c = cell f).
  { intros c H. simpl in H.
    destruct H as [<- | [<- | [<- | [<- | [<- | [<- | []]]]]]];
      eexists; reflexivity. }
  split; [ | split ].
  - unfold BALANCE, cell. destruct sel as [[i [l | ]] | ]; simpl.
    + split; [ discriminate | ]. intros (s & E & H). injection E as <-.
      discriminate.
    + split; [ | reflexivity ]. intros _. eexists. split; reflexivity.
    + split; [ discriminate | ]. intros (s & E & _). discriminate.
  - intros c H. destruct (Hc c H) as [f ->].
    unfold BALANCE, cell. destruct (card_account0 sel) as [a | []].
    + split; discriminate.
    + split; reflexivity.
  - intros Hs c H. simpl in H.
    destruct Hs as [-> | (s & -> & Hl)].
    + destruct H as [<- | [<- | [<- | [<- | [<- | [<- | []]]]]]]; reflexivity.
    + destruct s as [i l]. simpl in Hl. subst l.
      destruct H as [<- | [<- | [<- | [<- | [<- | [<- | []]]]]]]; reflexivity.
Qed.

End FeeCard64.
